(** * Math-Function-Visualizer: the function-to-geometry pipeline of [src/App.tsx]

    The development embeds the [useMemo] body of the [MathSurface] component
    (the 2d curve sampler and the 3d surface sampler with its colour bands)
    and the two equation handlers of [App] ([handleEquationUpdate] and
    [handlePresetSelect]).

    Numbers.  A JavaScript number is modelled by [num]: a finite value, the
    two infinities, or NaN.  Finite values are exact rationals, so the
    rounding of binary64 arithmetic and of the [Float32Array] stores is not
    modelled, and the sign of zero is not tracked (a division by zero behaves
    as a division by +0).  Every statement below is about this idealised
    arithmetic.  The resolution is an integer, as the range input of the
    page delivers it.

    Effects.  The typed arrays and the local variables of the 3d branch live
    in a [store] that is threaded through a small state-and-exception monad;
    a [throw] leaves the writes made so far in place, as a mutation does. *)

From Stdlib Require Import ZArith QArith Lia Lqa String List.
From stdpp Require Import base list.
Import ListNotations.

Local Open Scope Q_scope.

(** ** JavaScript numbers *)

Module JS.

Inductive num : Type :=
  | Fin (q : Q)
  | PInf
  | NInf
  | NaN.

(** Same number, up to the representation of the rational. *)
Definition num_eq (a b : num) : Prop :=
  match a, b with
  | Fin p, Fin q => p == q
  | PInf, PInf => True
  | NInf, NInf => True
  | NaN, NaN => True
  | _, _ => False
  end.

Definition num_eqb (a b : num) : bool :=
  match a, b with
  | Fin p, Fin q => Qeq_bool p q
  | PInf, PInf => true
  | NInf, NInf => true
  | NaN, NaN => true
  | _, _ => false
  end.

(** [isFinite(v)] *)
Definition isFinite (a : num) : bool :=
  match a with
  | Fin _ => true
  | _ => false
  end.

(** Sign of a finite value, used by the infinite cases of [*] and [/]. *)
Definition inf_of_sign (c : comparison) : num :=
  match c with
  | Eq => NaN
  | Gt => PInf
  | Lt => NInf
  end.

Definition neg (a : num) : num :=
  match a with
  | Fin q => Fin (- q)
  | PInf => NInf
  | NInf => PInf
  | NaN => NaN
  end.

(** [a + b] *)
Definition add (a b : num) : num :=
  match a, b with
  | NaN, _ => NaN
  | _, NaN => NaN
  | Fin p, Fin q => Fin (p + q)
  | PInf, NInf => NaN
  | NInf, PInf => NaN
  | PInf, _ => PInf
  | _, PInf => PInf
  | NInf, _ => NInf
  | _, NInf => NInf
  end.

(** [a - b] *)
Definition sub (a b : num) : num := add a (neg b).

(** [a * b] *)
Definition mul (a b : num) : num :=
  match a, b with
  | NaN, _ => NaN
  | _, NaN => NaN
  | Fin p, Fin q => Fin (p * q)
  | Fin p, PInf => inf_of_sign (p ?= 0)
  | PInf, Fin p => inf_of_sign (p ?= 0)
  | Fin p, NInf => neg (inf_of_sign (p ?= 0))
  | NInf, Fin p => neg (inf_of_sign (p ?= 0))
  | PInf, PInf => PInf
  | NInf, NInf => PInf
  | PInf, NInf => NInf
  | NInf, PInf => NInf
  end.

(** [a / b]; a zero divisor is +0. *)
Definition div (a b : num) : num :=
  match a, b with
  | NaN, _ => NaN
  | _, NaN => NaN
  | Fin p, Fin q =>
      match q ?= 0 with
      | Eq => inf_of_sign (p ?= 0)
      | _ => Fin (p / q)
      end
  | Fin _, _ => Fin 0
  | PInf, Fin q =>
      match q ?= 0 with
      | Lt => NInf
      | _ => PInf
      end
  | NInf, Fin q =>
      match q ?= 0 with
      | Lt => PInf
      | _ => NInf
      end
  | _, _ => NaN
  end.

(** [a < b]: false as soon as one side is NaN. *)
Definition lt (a b : num) : bool :=
  match a, b with
  | NaN, _ => false
  | _, NaN => false
  | Fin p, Fin q =>
      match p ?= q with
      | Lt => true
      | _ => false
      end
  | Fin _, PInf => true
  | Fin _, NInf => false
  | NInf, NInf => false
  | NInf, _ => true
  | PInf, _ => false
  end.

(** [a !== b] on numbers: NaN differs from everything, itself included. *)
Definition strict_ne (a b : num) : bool :=
  match a, b with
  | NaN, _ => true
  | _, NaN => true
  | _, _ => negb (num_eqb a b)
  end.

(** [Math.min(a, b)] *)
Definition Math_min (a b : num) : num :=
  match a, b with
  | NaN, _ => NaN
  | _, NaN => NaN
  | NInf, _ => NInf
  | _, NInf => NInf
  | PInf, c => c
  | c, PInf => c
  | Fin p, Fin q =>
      match p ?= q with
      | Gt => Fin q
      | _ => Fin p
      end
  end.

(** [Math.max(a, b)] *)
Definition Math_max (a b : num) : num :=
  match a, b with
  | NaN, _ => NaN
  | _, NaN => NaN
  | PInf, _ => PInf
  | _, PInf => PInf
  | NInf, c => c
  | c, NInf => c
  | Fin p, Fin q =>
      match p ?= q with
      | Lt => Fin q
      | _ => Fin p
      end
  end.

(** A number literal and an integer loop counter read as numbers. *)
Definition lit (q : Q) : num := Fin q.
Definition of_Z (z : Z) : num := Fin (inject_Z z).
Definition of_nat (n : nat) : num := of_Z (Z.of_nat n).

(** [lo <= a <= hi] for a finite [a]; false for NaN and the infinities. *)
Definition within (lo hi : Q) (a : num) : Prop :=
  match a with
  | Fin q => lo <= q /\ q <= hi
  | _ => False
  end.

End JS.

Export JS.

Declare Scope num_scope.
Delimit Scope num_scope with num.
Bind Scope num_scope with num.
Infix "+" := JS.add : num_scope.
Infix "-" := JS.sub : num_scope.
Infix "*" := JS.mul : num_scope.
Infix "/" := JS.div : num_scope.
Infix "≈" := JS.num_eq (at level 70, no associativity).

(** ** Exceptions and mutable buffers *)

(** What a call produces: a value, or a thrown exception. *)
Inductive outcome (A : Type) : Type :=
  | Ret (a : A)
  | Throw.
Arguments Ret {A} a.
Arguments Throw {A}.

(** A computation over a store [St].  The store that comes back after a
    [Throw] holds the writes made before it. *)
Definition M (St A : Type) : Type := St -> outcome A * St.

Definition ret {St A} (a : A) : M St A := fun s => (Ret a, s).

Definition bind {St A B} (c : M St A) (k : A -> M St B) : M St B :=
  fun s =>
    match c s with
    | (Ret a, s') => k a s'
    | (Throw, s') => (Throw, s')
    end.

(** A call that may throw and does not touch the store. *)
Definition call {St A} (o : outcome A) : M St A := fun s => (o, s).

(** [try { body } catch { handler }] *)
Definition try_catch {St A} (body handler : M St A) : M St A :=
  fun s =>
    match body s with
    | (Ret a, s') => (Ret a, s')
    | (Throw, s') => handler s'
    end.

Notation "x <- c ;; k" := (bind c (fun x => k))
  (at level 100, c at next level, right associativity).
Notation "c ;; k" := (bind c (fun _ => k))
  (at level 100, right associativity).

(** [for (let i = start; i < start + n; i++) body(i)] *)
Fixpoint for_loop {St} (i n : nat) (body : nat -> M St unit) : M St unit :=
  match n with
  | O => ret tt
  | S n' => body i ;; for_loop (S i) n' body
  end.

(** Reading index [i] of an array; [undefined] counts as NaN in arithmetic. *)
Definition rd (l : list num) (i : nat) : num := default NaN (l !! i).

(** [new Float32Array(len)]: zeros, or a RangeError for a negative length. *)
Definition new_Float32Array (len : Z) : outcome (list num) :=
  if (len <? 0)%Z then Throw else Ret (replicate (Z.to_nat len) (lit 0)).

(** ** Geometry handed to the renderer *)

Record vertex : Type := mkVertex {
  position : num * num * num;
  color : num * num * num
}.

(** The [position] and [color] attributes, three numbers per vertex. *)
Record geometry : Type := mkGeometry {
  g_positions : list num;
  g_colors : list num;
  isLine : bool
}.

Definition triple_at (l : list num) (i : nat) : num * num * num :=
  (rd l (i * 3), rd l (i * 3 + 1), rd l (i * 3 + 2)).

Definition vertex_at (g : geometry) (i : nat) : vertex :=
  mkVertex (triple_at (g_positions g) i) (triple_at (g_colors g) i).

Definition vertex_count (g : geometry) : nat :=
  (length (g_positions g) / 3)%nat.

Definition vertices (g : geometry) : list vertex :=
  map (vertex_at g) (seq 0 (vertex_count g)).

(** ** The evaluator capability *)

(** The scope object passed to mathjs' [evaluate]; [e] and [pi] are always
    bound to the same constants and are left out. *)
Inductive scope : Type :=
  | Scope_x (x : num)
  | Scope_xy (x y : num).

Definition evaluator : Type := string -> scope -> outcome num.

(** [const size = 6] *)
Definition size : num := lit 6.

(** [isFinite(v) ? Math.max(-10, Math.min(10, v)) : 0] *)
Definition clamp_value (v : num) : num :=
  if isFinite v then Math_max (lit (-10)) (Math_min (lit 10) v) else lit 0.

(** ** The 2d branch of [MathSurface]: a polyline *)

Module Curve2d.

(** The two typed arrays the loop writes into. *)
Record store : Type := mkStore {
  positions : list num;
  colors : list num
}.

(** [positions[i] = v] *)
Definition set_position (i : nat) (v : num) : M store unit :=
  fun s => (Ret tt, mkStore (<[i:=v]> (positions s)) (colors s)).

(** [colors[i] = v] *)
Definition set_color (i : nat) (v : num) : M store unit :=
  fun s => (Ret tt, mkStore (positions s) (<[i:=v]> (colors s))).

(** [positions[i]] *)
Definition get_position (i : nat) : M store num :=
  fun s => (Ret (rd (positions s) i), s).

(** [-size + (i / (points - 1)) * (size * 2)] *)
Definition sample_x (points : Z) (i : nat) : num :=
  (neg size + (of_nat i / (of_Z points - lit 1)) * (size * lit 2))%num.

Section Sampler.

Variable evaluate : evaluator.
Variable equation : string.
Variable points : Z.

(** One iteration of the [for] loop, lines 26-42. *)
Definition loop_body (i : nat) : M store unit :=
  let x := sample_x points i in
  try_catch
    (y <- call (evaluate equation (Scope_x x)) ;;
     set_position (i * 3) x ;;
     set_position (i * 3 + 1) (clamp_value y) ;;
     set_position (i * 3 + 2) (lit 0) ;;
     p <- get_position (i * 3 + 1) ;;
     let normalizedY := ((p + size) / (size * lit 2))%num in
     set_color (i * 3) (lit 0.2 + normalizedY * lit 0.8)%num ;;
     set_color (i * 3 + 1) (lit 0.2 + (lit 1 - normalizedY) * lit 0.8)%num ;;
     set_color (i * 3 + 2) (lit 0.2))
    (set_position (i * 3) x ;;
     set_position (i * 3 + 1) (lit 0) ;;
     set_position (i * 3 + 2) (lit 0)).

(** [for (let i = 0; i < points; i++) { ... }] *)
Definition sampler : M store unit :=
  for_loop 0 (Z.to_nat points) loop_body.

End Sampler.

(** The [mode === '2d'] branch: allocate both arrays, run the loop, hand the
    arrays over as the geometry's attributes. *)
Definition MathSurface (evaluate : evaluator) (equation : string)
    (resolution : Z) : outcome geometry :=
  let points := resolution in
  match new_Float32Array (points * 3), new_Float32Array (points * 3) with
  | Ret positions0, Ret colors0 =>
      match sampler evaluate equation points (mkStore positions0 colors0) with
      | (Ret _, s) => Ret (mkGeometry (positions s) (colors s) true)
      | (Throw, _) => Throw
      end
  | _, _ => Throw
  end.

End Curve2d.

(** ** The 3d branch of [MathSurface]: a coloured height field *)

(** What [new THREE.PlaneGeometry(width, height, widthSegments,
    heightSegments)] leaves in its [position] attribute, one triple per
    vertex.  three.js is not part of the repository; the sampler is
    parametric in it. *)
Definition plane_constructor : Type :=
  num -> num -> Z -> Z -> list (num * num * num).

(** The flat [Float32Array] behind the [position] attribute. *)
Definition flatten (vs : list (num * num * num)) : list num :=
  flat_map (fun v => [v.1.1; v.1.2; v.2]) vs.

(** Modelled from the spec: the vertex grid of [THREE.PlaneGeometry], which
    lives in three.js and not in this repository.  Section 4.1 asks for a
    row-major grid of [resolution] x [resolution] points that uses, on each
    axis independently, the linear spacing of the curve sampler,
    [-size + (k / (resolution - 1)) * 2 * size]; here [width = 2 * size] and
    [widthSegments = resolution - 1]. *)
Definition axis_coordinate (extent : num) (segments : Z) (k : nat) : num :=
  (neg (extent / lit 2) + (of_nat k / of_Z segments) * extent)%num.

Definition PlaneGeometry_spec : plane_constructor :=
  fun width height widthSegments heightSegments =>
    flat_map
      (fun iy =>
         map (fun ix => (axis_coordinate width widthSegments ix,
                         axis_coordinate height heightSegments iy,
                         lit 0))
             (seq 0 (Z.to_nat (widthSegments + 1))))
      (seq 0 (Z.to_nat (heightSegments + 1))).

Module Surface3d.

(** The arrays and the [let]/[const] locals of lines 57-62. *)
Record store : Type := mkStore {
  positions : list num;
  colors : list num;
  minZ : num;
  maxZ : num;
  zValues : list num
}.

Definition get_position (i : nat) : M store num :=
  fun s => (Ret (rd (positions s) i), s).

Definition set_position (i : nat) (v : num) : M store unit :=
  fun s => (Ret tt, mkStore (<[i:=v]> (positions s)) (colors s)
                            (minZ s) (maxZ s) (zValues s)).

Definition set_color (i : nat) (v : num) : M store unit :=
  fun s => (Ret tt, mkStore (positions s) (<[i:=v]> (colors s))
                            (minZ s) (maxZ s) (zValues s)).

Definition get_minZ : M store num := fun s => (Ret (minZ s), s).
Definition get_maxZ : M store num := fun s => (Ret (maxZ s), s).

Definition set_minZ (v : num) : M store unit :=
  fun s => (Ret tt, mkStore (positions s) (colors s) v (maxZ s) (zValues s)).

Definition set_maxZ (v : num) : M store unit :=
  fun s => (Ret tt, mkStore (positions s) (colors s) (minZ s) v (zValues s)).

(** [zValues.push(v)] *)
Definition push_zValue (v : num) : M store unit :=
  fun s => (Ret tt, mkStore (positions s) (colors s) (minZ s) (maxZ s)
                            (zValues s ++ [v])).

(** [zValues[k]] *)
Definition get_zValue (k : nat) : M store num :=
  fun s => (Ret (rd (zValues s) k), s).

(** [maxZ !== minZ ? (zValue - minZ) / (maxZ - minZ) : 0.5] *)
Definition normalizedHeight_of (minZ maxZ zValue : num) : num :=
  if strict_ne maxZ minZ then ((zValue - minZ) / (maxZ - minZ))%num
  else lit 0.5.

Section Sampler.

Variable evaluate : evaluator.
Variable equation : string.

(** One iteration of the first loop, lines 65-76. *)
Definition sample_body (i : nat) : M store unit :=
  x <- get_position i ;;
  y <- get_position (i + 1) ;;
  try_catch
    (z <- call (evaluate equation (Scope_xy x y)) ;;
     let zValue := clamp_value z in
     push_zValue zValue ;;
     lo <- get_minZ ;;
     set_minZ (Math_min lo zValue) ;;
     hi <- get_maxZ ;;
     set_maxZ (Math_max hi zValue))
    (push_zValue (lit 0)).

(** One iteration of the second loop, lines 80-100. *)
Definition color_body (i : nat) : M store unit :=
  zValue <- get_zValue (i / 3) ;;
  set_position (i + 2) zValue ;;
  lo <- get_minZ ;;
  hi <- get_maxZ ;;
  let normalizedHeight := normalizedHeight_of lo hi zValue in
  if lt normalizedHeight (lit 0.33) then
    let t := (normalizedHeight / lit 0.33)%num in
    set_color i (lit 0 + t * lit 0.4)%num ;;
    set_color (i + 1) (lit 0.4 + t * lit 0.6)%num ;;
    set_color (i + 2) (lit 0.9)
  else if lt normalizedHeight (lit 0.66) then
    let t := ((normalizedHeight - lit 0.33) / lit 0.33)%num in
    set_color i (lit 0.4 + t * lit 0.5)%num ;;
    set_color (i + 1) (lit 0.9) ;;
    set_color (i + 2) (lit 0.9 - t * lit 0.6)%num
  else
    let t := ((normalizedHeight - lit 0.66) / lit 0.34)%num in
    set_color i (lit 0.9) ;;
    set_color (i + 1) (lit 0.9 - t * lit 0.6)%num ;;
    set_color (i + 2) (lit 0.3 - t * lit 0.2)%num.

(** [for (let i = 0; i < positions.length; i += 3) body(i)]: the counter
    takes the values [0, 3, 6, ...] below the length. *)
Definition for_each_vertex (body : nat -> M store unit) : M store unit :=
  fun s =>
    for_loop 0 ((length (positions s) + 2) / 3) (fun k => body (k * 3)%nat) s.

(** Both loops in sequence. *)
Definition sampler : M store unit :=
  for_each_vertex sample_body ;;
  for_each_vertex color_body.

End Sampler.

(** State of the locals when the first loop starts, lines 56-62. *)
Definition initial_store (PlaneGeometry : plane_constructor)
    (resolution : Z) : store :=
  let positions0 :=
    flatten (PlaneGeometry (size * lit 2)%num (size * lit 2)%num
                           (resolution - 1)%Z (resolution - 1)%Z) in
  mkStore positions0 (replicate (length positions0) (lit 0)) PInf NInf [].

(** The two loops run from the initial store; the final store is kept so
    that the tracked [minZ] and [maxZ] can be inspected. *)
Definition run (PlaneGeometry : plane_constructor) (evaluate : evaluator)
    (equation : string) (resolution : Z) : outcome unit * store :=
  sampler evaluate equation (initial_store PlaneGeometry resolution).

(** The [else] branch of the mode test. *)
Definition MathSurface (PlaneGeometry : plane_constructor)
    (evaluate : evaluator) (equation : string) (resolution : Z)
    : outcome geometry :=
  match run PlaneGeometry evaluate equation resolution with
  | (Ret _, s) => Ret (mkGeometry (positions s) (colors s) false)
  | (Throw, _) => Throw
  end.

End Surface3d.

(** ** The component and the handlers of [App] *)

Inductive mode : Type :=
  | Mode2d
  | Mode3d.

(** [MathSurface({ equation, resolution, mode })] *)
Definition MathSurface (PlaneGeometry : plane_constructor)
    (evaluate : evaluator) (equation : string) (resolution : Z) (m : mode)
    : outcome geometry :=
  match m with
  | Mode2d => Curve2d.MathSurface evaluate equation resolution
  | Mode3d => Surface3d.MathSurface PlaneGeometry evaluate equation resolution
  end.

Module App.

(** The [useState] cells of [App]. *)
Record state : Type := mkState {
  app_mode : mode;
  equation : string;
  inputValue : string;
  resolution : Z;
  error : string;
  showInfo : bool
}.

Definition setEquation (v : string) : M state unit :=
  fun s => (Ret tt, mkState (app_mode s) v (inputValue s) (resolution s)
                            (error s) (showInfo s)).

Definition setInputValue (v : string) : M state unit :=
  fun s => (Ret tt, mkState (app_mode s) (equation s) v (resolution s)
                            (error s) (showInfo s)).

Definition setError (v : string) : M state unit :=
  fun s => (Ret tt, mkState (app_mode s) (equation s) (inputValue s)
                            (resolution s) v (showInfo s)).

Definition get_inputValue : M state string :=
  fun s => (Ret (inputValue s), s).

Definition get_mode : M state mode :=
  fun s => (Ret (app_mode s), s).

(** The trial evaluation of lines 204-208. *)
Definition trial (evaluate : evaluator) (input : string) (m : mode)
    : outcome num :=
  match m with
  | Mode2d => evaluate input (Scope_x (lit 1))
  | Mode3d => evaluate input (Scope_xy (lit 1) (lit 1))
  end.

(** [handleEquationUpdate], lines 202-214. *)
Definition handleEquationUpdate (evaluate : evaluator) : M state unit :=
  input <- get_inputValue ;;
  m <- get_mode ;;
  try_catch
    (_ <- call (trial evaluate input m) ;;
     setEquation input ;;
     setError "")
    (setError "Invalid equation syntax").

(** [handlePresetSelect], lines 216-220. *)
Definition handlePresetSelect (presetEquation : string) : M state unit :=
  setInputValue presetEquation ;;
  setEquation presetEquation ;;
  setError "".

Definition setMode (v : mode) : M state unit :=
  fun s => (Ret tt, mkState v (equation s) (inputValue s) (resolution s)
                            (error s) (showInfo s)).

Definition setResolution (v : Z) : M state unit :=
  fun s => (Ret tt, mkState (app_mode s) (equation s) (inputValue s) v
                            (error s) (showInfo s)).

Definition setShowInfo (v : bool) : M state unit :=
  fun s => (Ret tt, mkState (app_mode s) (equation s) (inputValue s)
                            (resolution s) (error s) v).

Definition get_showInfo : M state bool :=
  fun s => (Ret (showInfo s), s).

(** [resetView], lines 222-224. *)
Definition resetView (evaluate : evaluator) : M state unit :=
  handleEquationUpdate evaluate.

(** [toggleMode], lines 226-238. *)
Definition toggleMode : M state unit :=
  m <- get_mode ;;
  let newMode := match m with Mode2d => Mode3d | Mode3d => Mode2d end in
  setMode newMode ;;
  match newMode with
  | Mode2d =>
      setInputValue "sin(x)" ;;
      setEquation "sin(x)"
  | Mode3d =>
      setInputValue "sin(sqrt(x*x + y*y))" ;;
      setEquation "sin(sqrt(x*x + y*y))"
  end.

(** The [useState] initial values, lines 195-200. *)
Definition initial : state :=
  mkState Mode3d "sin(sqrt(x*x + y*y))" "sin(sqrt(x*x + y*y))" 80 "" false.

(** What the [MathSurface] element of line 436 is given. *)
Definition configuration (s : state) : string * Z * mode :=
  (equation s, resolution s, app_mode s).

(** The geometry on screen: a function of the configuration alone. *)
Definition rendered (PlaneGeometry : plane_constructor) (evaluate : evaluator)
    (s : state) : outcome geometry :=
  MathSurface PlaneGeometry evaluate (equation s) (resolution s) (app_mode s).

End App.

(** ** The preset tables and the events of the page *)

Record preset : Type := mkPreset {
  name : string;
  preset_equation : string
}.

(** Lines 172-181. *)
Definition presetEquations2D : list preset :=
  [ mkPreset "Sine Wave" "sin(x)";
    mkPreset "Parabola" "x^2";
    mkPreset "Exponential" "exp(x/2)";
    mkPreset "Logarithm" "log(abs(x) + 1)";
    mkPreset "Absolute Value" "abs(x)";
    mkPreset "Sigmoid" "1 / (1 + exp(-x))";
    mkPreset "Gaussian" "exp(-x^2)";
    mkPreset "Step Function" "x > 0 ? 1 : 0" ].

(** Lines 183-192. *)
Definition presetEquations3D : list preset :=
  [ mkPreset "Sine Wave" "sin(sqrt(x*x + y*y))";
    mkPreset "Ripple Effect" "cos(x) * cos(y)";
    mkPreset "Saddle Point" "x*x - y*y";
    mkPreset "Paraboloid" "(x*x + y*y) / 4";
    mkPreset "Wave Interference" "sin(x) * cos(y)";
    mkPreset "Gaussian Bell" "2 * exp(-(x*x + y*y)/8)";
    mkPreset "Hyperbolic" "x*y / 4";
    mkPreset "Spiral" "sin(sqrt(x*x + y*y) + atan2(y, x))" ].

(** [mode === '2d' ? presetEquations2D : presetEquations3D], line 240. *)
Definition currentPresets (m : mode) : list preset :=
  match m with
  | Mode2d => presetEquations2D
  | Mode3d => presetEquations3D
  end.

(** The events the page reacts to, each with the handler its element is
    wired to. *)
Inductive action : Type :=
  | TypeText (text : string)
  | ClickRender
  | ClickReset
  | ClickPreset (i : nat)
  | ClickToggle
  | MoveSlider (value : Z)
  | ClickInfo
  | CloseInfo.

(** One event.  [TypeText] is the [onChange] of line 311, [ClickRender] and
    [ClickReset] the buttons of lines 318 and 325, [ClickPreset i] the [i]-th
    button of the list of lines 369-382 (no such button: nothing happens),
    [ClickToggle] the switch of line 281, [MoveSlider] the range input of
    line 354, [ClickInfo] and [CloseInfo] the buttons of lines 262 and 605. *)
Definition handle (evaluate : evaluator) (a : action) : M App.state unit :=
  match a with
  | TypeText text => App.setInputValue text
  | ClickRender => App.handleEquationUpdate evaluate
  | ClickReset => App.resetView evaluate
  | ClickPreset i =>
      m <- App.get_mode ;;
      match currentPresets m !! i with
      | Some p => App.handlePresetSelect (preset_equation p)
      | None => ret tt
      end
  | ClickToggle => App.toggleMode
  | MoveSlider value => App.setResolution value
  | ClickInfo =>
      shown <- App.get_showInfo ;;
      App.setShowInfo (negb shown)
  | CloseInfo => App.setShowInfo false
  end.

(** The state after a sequence of events. *)
Definition after (evaluate : evaluator) (events : list action)
    (s : App.state) : App.state :=
  fold_left (fun s a => (handle evaluate a s).2) events s.

(** ** Evaluator behaviour on the expressions of the worked examples *)

(** mathjs on a handful of expressions.  [x^2], [1/x] and [x*y / 4] always
    return; a conditional evaluates only the branch it takes, so
    [... ? ... : foo] throws (undefined symbol [foo]) exactly where the
    condition is false; the unterminated [sin(x], like any other text here,
    does not evaluate at all. *)
Definition mathjs_examples : evaluator :=
  fun equation sc =>
    match sc with
    | Scope_x x =>
        if String.eqb equation "x^2" then Ret (x * x)%num
        else if String.eqb equation "1/x" then Ret (lit 1 / x)%num
        else if String.eqb equation "x > 0 ? 1 : foo" then
          (if lt (lit 0) x then Ret (lit 1) else Throw)
        else Throw
    | Scope_xy x y =>
        if String.eqb equation "x*y / 4" then Ret (x * y / lit 4)%num
        else if String.eqb equation "x > 0 ? 1 : foo" then
          (if lt (lit 0) x then Ret (lit 1) else Throw)
        else if String.eqb equation "x > 0 ? y + 8 : foo" then
          (if lt (lit 0) x then Ret (y + lit 8)%num else Throw)
        else if String.eqb equation "x == 1 ? 0 : foo" then
          (if num_eqb x (lit 1) then Ret (lit 0) else Throw)
        else Throw
    end.

(** ** Loop-free reading of one sample *)

(** What the 2d loop leaves at vertex [i]: the clamped value, and the colour
    (the [catch] block writes no colour, so the zeros of the fresh array
    stay). *)
Definition curve_value (evaluate : evaluator) (equation : string)
    (points : Z) (i : nat) : num :=
  match evaluate equation (Scope_x (Curve2d.sample_x points i)) with
  | Ret y => clamp_value y
  | Throw => lit 0
  end.

Definition curve_gradient (p : num) : num * num * num :=
  let normalizedY := ((p + size) / (size * lit 2))%num in
  ((lit 0.2 + normalizedY * lit 0.8)%num,
   (lit 0.2 + (lit 1 - normalizedY) * lit 0.8)%num,
   lit 0.2).

Definition curve_color (evaluate : evaluator) (equation : string)
    (points : Z) (i : nat) : num * num * num :=
  match evaluate equation (Scope_x (Curve2d.sample_x points i)) with
  | Ret y => curve_gradient (clamp_value y)
  | Throw => (lit 0, lit 0, lit 0)
  end.

Definition curve_vertex (evaluate : evaluator) (equation : string)
    (points : Z) (i : nat) : vertex :=
  mkVertex (Curve2d.sample_x points i,
            curve_value evaluate equation points i,
            lit 0)
           (curve_color evaluate equation points i).

(** Loop-free reading of lines 85-100: the colour written for a normalised
    height. *)
Definition surface_gradient (normalizedHeight : num) : num * num * num :=
  if lt normalizedHeight (lit 0.33) then
    let t := (normalizedHeight / lit 0.33)%num in
    ((lit 0 + t * lit 0.4)%num, (lit 0.4 + t * lit 0.6)%num, lit 0.9)
  else if lt normalizedHeight (lit 0.66) then
    let t := ((normalizedHeight - lit 0.33) / lit 0.33)%num in
    ((lit 0.4 + t * lit 0.5)%num, lit 0.9, (lit 0.9 - t * lit 0.6)%num)
  else
    let t := ((normalizedHeight - lit 0.66) / lit 0.34)%num in
    (lit 0.9, (lit 0.9 - t * lit 0.6)%num, (lit 0.3 - t * lit 0.2)%num).

(** The evaluator call made for a grid vertex. *)
Definition surface_call (evaluate : evaluator) (equation : string)
    (v : num * num * num) : outcome num :=
  evaluate equation (Scope_xy v.1.1 v.1.2).

(** What is pushed on [zValues] for that call. *)
Definition pushed_value (o : outcome num) : num :=
  match o with
  | Ret z => clamp_value z
  | Throw => lit 0
  end.

(** How [minZ] and [maxZ] move for that call: only inside the [try]. *)
Definition track_min (acc : num) (o : outcome num) : num :=
  match o with
  | Ret z => Math_min acc (clamp_value z)
  | Throw => acc
  end.

Definition track_max (acc : num) (o : outcome num) : num :=
  match o with
  | Ret z => Math_max acc (clamp_value z)
  | Throw => acc
  end.

Definition tracked_minZ (os : list (outcome num)) : num :=
  fold_left track_min os PInf.

Definition tracked_maxZ (os : list (outcome num)) : num :=
  fold_left track_max os NInf.

(** The invariant of the 2d loop after [k] iterations. *)
Definition curve_inv (evaluate : evaluator) (equation : string) (points : Z)
    (n k : nat) (s : Curve2d.store) : Prop :=
  length (Curve2d.positions s) = (n * 3)%nat /\
  length (Curve2d.colors s) = (n * 3)%nat /\
  (forall j, (j < k)%nat ->
     triple_at (Curve2d.positions s) j
       = position (curve_vertex evaluate equation points j) /\
     triple_at (Curve2d.colors s) j = curve_color evaluate equation points j) /\
  (forall j, (k <= j < n)%nat ->
     triple_at (Curve2d.colors s) j = (lit 0, lit 0, lit 0)).

(** The invariant of the first 3d loop after [k] iterations, [calls] being
    the evaluator calls of the whole grid. *)
Definition sample_inv (vs : list (num * num * num))
    (calls : list (outcome num)) (c0 : list num) (k : nat)
    (s : Surface3d.store) : Prop :=
  Surface3d.positions s = flatten vs /\
  Surface3d.colors s = c0 /\
  Surface3d.minZ s = tracked_minZ (take k calls) /\
  Surface3d.maxZ s = tracked_maxZ (take k calls) /\
  Surface3d.zValues s = map pushed_value (take k calls).

(** The invariant of the second 3d loop after [k] iterations. *)
Definition color_inv (p0 : list num) (lo hi : num) (zs : list num)
    (m k : nat) (s : Surface3d.store) : Prop :=
  length (Surface3d.positions s) = (m * 3)%nat /\
  length (Surface3d.colors s) = (m * 3)%nat /\
  Surface3d.minZ s = lo /\
  Surface3d.maxZ s = hi /\
  Surface3d.zValues s = zs /\
  (forall j, rd (Surface3d.positions s) (j * 3) = rd p0 (j * 3) /\
             rd (Surface3d.positions s) (j * 3 + 1) = rd p0 (j * 3 + 1)) /\
  (forall j z, (j < k)%nat -> zs !! j = Some z ->
     rd (Surface3d.positions s) (j * 3 + 2) = z /\
     triple_at (Surface3d.colors s) j
       = surface_gradient (Surface3d.normalizedHeight_of lo hi z)).

(** ** Vocabulary of the specification *)

Definition vx (v : vertex) : num := (position v).1.1.
Definition vy (v : vertex) : num := (position v).1.2.
Definition vz (v : vertex) : num := (position v).2.

(** The clamped value of a vertex: the height [y] of a curve point, the
    height [z] of a surface point. *)
Definition clampedValue (m : mode) (v : vertex) : num :=
  match m with
  | Mode2d => vy v
  | Mode3d => vz v
  end.

(** An evaluation fails when the call throws or its result is not finite. *)
Definition failed (o : outcome num) : Prop :=
  match o with
  | Ret v => isFinite v = false
  | Throw => True
  end.

(** Saturation into [-10, 10] as the specification words it. *)
Definition saturate (v : Q) : Q :=
  if Qlt_le_dec v (-10) then -10
  else if Qlt_le_dec 10 v then 10
  else v.

(** The grid the 3d branch starts from. *)
Definition plane_vertices (PlaneGeometry : plane_constructor)
    (resolution : Z) : list (num * num * num) :=
  PlaneGeometry (size * lit 2)%num (size * lit 2)%num
                (resolution - 1)%Z (resolution - 1)%Z.

(** The spacing of the specification: [x_i = -6 + (i / (N - 1)) * 12]. *)
Definition spacing (N : Z) (i : nat) : Q :=
  -6 + (inject_Z (Z.of_nat i) / (inject_Z N - 1)) * 12.

(** The three-band map as the specification words it. *)
Definition three_band (t : num) : num * num * num :=
  if lt t (lit 0.33) then
    let u := (t / lit 0.33)%num in
    ((lit 0.4 * u)%num, (lit 0.4 + lit 0.6 * u)%num, lit 0.9)
  else if lt t (lit 0.66) then
    let u := ((t - lit 0.33) / lit 0.33)%num in
    ((lit 0.4 + lit 0.5 * u)%num, lit 0.9, (lit 0.9 - lit 0.6 * u)%num)
  else
    let u := ((t - lit 0.66) / lit 0.34)%num in
    (lit 0.9, (lit 0.9 - lit 0.6 * u)%num, (lit 0.3 - lit 0.2 * u)%num).

(** Channel-wise equality of two colours. *)
Definition same_color (a b : num * num * num) : Prop :=
  a.1.1 ≈ b.1.1 /\ a.1.2 ≈ b.1.2 /\ a.2 ≈ b.2.

(** The colour rule of Curve mode as the specification words it. *)
Definition curve_gradient_claim (clamped : num) : num * num * num :=
  let t := ((clamped + lit 6) / lit 12)%num in
  ((lit 0.2 + lit 0.8 * t)%num,
   (lit 0.2 + lit 0.8 * (lit 1 - t))%num,
   lit 0.2).

(** A segment of two vertices with finite coordinates, the outcome the
    specification asks for when the resolution is below 2.
    *)
Definition two_point_segment (o : outcome geometry) : Prop :=
  exists g,
    o = Ret g /\
    vertex_count g = 2%nat /\
    forall i, (i < 2)%nat ->
      isFinite (vx (vertex_at g i)) = true /\
      isFinite (vy (vertex_at g i)) = true.

(** The state after the user has typed [text] into the input box (the
    [onChange] of line 311). *)
Definition typed (text : string) (s : App.state) : App.state :=
  (App.setInputValue text s).2.

(** Two states of the page in 2d mode with [sin(x)] on screen: the user has
    typed the unterminated [sin(x], or has typed nothing yet. *)
Definition state_with_typo : App.state :=
  App.mkState Mode2d "sin(x)" "sin(x" 80 "" false.

Definition state_at_rest : App.state :=
  App.mkState Mode2d "sin(x)" "sin(x)" 80 "" false.

(** ** Vocabulary for the page as a state machine *)

(** The active equation belongs to the current mode: it is one of the mode's
    presets, or its trial evaluation in that mode returns. *)
Definition fits_mode (evaluate : evaluator) (s : App.state) : Prop :=
  (exists p, In p (currentPresets (App.app_mode s)) /\
             App.equation s = preset_equation p) \/
  (exists v, App.trial evaluate (App.equation s) (App.app_mode s) = Ret v).

(** The error cell holds nothing or the one message of line 212. *)
Definition known_error (s : App.state) : Prop :=
  App.error s = ""%string \/ App.error s = "Invalid equation syntax"%string.

(** The range input of lines 349-356 only delivers values from 30 to 150. *)
Definition slider_in_range (a : action) : Prop :=
  match a with
  | MoveSlider value => (30 <= value <= 150)%Z
  | _ => True
  end.

(** The equation a mode starts with after [toggleMode]. *)
Definition default_equation (m : mode) : string :=
  match m with
  | Mode2d => "sin(x)"
  | Mode3d => "sin(sqrt(x*x + y*y))"
  end.

Definition other_mode (m : mode) : mode :=
  match m with
  | Mode2d => Mode3d
  | Mode3d => Mode2d
  end.

(** ** Vocabulary for the tracked bounds of the 3d branch *)

(** The clamped values of the calls that returned, in grid order. *)
Definition returned_values (os : list (outcome num)) : list num :=
  flat_map (fun o => match o with
                     | Ret z => [clamp_value z]
                     | Throw => []
                     end) os.

(** [acc] is the least element of [l]: +Infinity for an empty [l]. *)
Definition least_of (l : list num) (acc : num) : Prop :=
  match acc with
  | PInf => l = []
  | Fin m => In (Fin m) l /\ forall x, In x l -> exists q, x = Fin q /\ m <= q
  | _ => False
  end.

(** [acc] is the greatest element of [l]: -Infinity for an empty [l]. *)
Definition greatest_of (l : list num) (acc : num) : Prop :=
  match acc with
  | NInf => l = []
  | Fin m => In (Fin m) l /\ forall x, In x l -> exists q, x = Fin q /\ q <= m
  | _ => False
  end.

(** The normalised height the second 3d loop computes for vertex [k]. *)
Definition normalizedHeight_at (s : Surface3d.store) (g : geometry)
    (k : nat) : num :=
  Surface3d.normalizedHeight_of (Surface3d.minZ s) (Surface3d.maxZ s)
    (clampedValue Mode3d (vertex_at g k)).

Definition green (v : vertex) : num := (color v).1.2.

(** mathjs on [x < 0 ? 0 : x > 0 ? 1 : (y < 0 ? 0.32 : 0.33)], a surface
    with heights on both sides of the first band edge; in 2d, where [y] is
    not bound, the innermost branch throws. *)
Definition mathjs_band_edge : evaluator :=
  fun equation sc =>
    if String.eqb equation "x < 0 ? 0 : x > 0 ? 1 : (y < 0 ? 0.32 : 0.33)" then
      match sc with
      | Scope_x x =>
          if lt x (lit 0) then Ret (lit 0)
          else if lt (lit 0) x then Ret (lit 1)
          else Throw
      | Scope_xy x y =>
          if lt x (lit 0) then Ret (lit 0)
          else if lt (lit 0) x then Ret (lit 1)
          else if lt y (lit 0) then Ret (lit 0.32)
          else Ret (lit 0.33)
      end
    else Throw.

(** ** Reasoning rules for the monad *)

Section LoopRules.

Context {St : Type}.

(** Invariant rule: a body that always returns and re-establishes the
    invariant makes the loop return with the invariant at the final index. *)
Lemma for_loop_invariant (I : nat -> St -> Prop) (body : nat -> M St unit) :
  forall n i s,
    I i s ->
    (forall j t, (i <= j < i + n)%nat -> I j t ->
       exists t', body j t = (Ret tt, t') /\ I (S j) t') ->
    exists s', for_loop i n body s = (Ret tt, s') /\ I (i + n)%nat s'.
Proof.
  induction n as [|n IH]; intros i s Hi Hstep.
  - exists s. split; [reflexivity|]. now rewrite Nat.add_0_r.
  - destruct (Hstep i s ltac:(lia) Hi) as (t & Hb & Ht).
    destruct (IH (S i) t Ht) as (s' & Hl & Hs').
    + intros j u Hj Hu. apply Hstep; [lia|exact Hu].
    + exists s'. split.
      * cbn [for_loop]. unfold bind at 1. rewrite Hb. exact Hl.
      * now replace (i + S n)%nat with (S i + n)%nat by lia.
Qed.

End LoopRules.

Lemma rd_insert_eq (l : list num) (i : nat) (v : num) :
  (i < length l)%nat -> rd (<[i:=v]> l) i = v.
Proof.
  intros H. unfold rd. now rewrite list_lookup_insert_eq.
Qed.

Lemma rd_insert_ne (l : list num) (i j : nat) (v : num) :
  i <> j -> rd (<[i:=v]> l) j = rd l j.
Proof.
  intros H. unfold rd. now rewrite list_lookup_insert_ne.
Qed.

Lemma rd_replicate (n i : nat) (v : num) :
  (i < n)%nat -> rd (replicate n v) i = v.
Proof.
  intros H. unfold rd. now rewrite lookup_replicate_2.
Qed.

Ltac rd_simpl :=
  repeat first
    [ rewrite rd_insert_eq by (rewrite ?length_insert; lia)
    | rewrite rd_insert_ne by lia ].

(** ** The 2d loop, vertex by vertex *)

Section CurveFacts.

Variable evaluate : evaluator.
Variable equation : string.
Variable points : Z.

Lemma curve_body_step (n i : nat) (s : Curve2d.store) :
  (i < n)%nat ->
  length (Curve2d.positions s) = (n * 3)%nat ->
  length (Curve2d.colors s) = (n * 3)%nat ->
  exists s',
    Curve2d.loop_body evaluate equation points i s = (Ret tt, s') /\
    length (Curve2d.positions s') = (n * 3)%nat /\
    length (Curve2d.colors s') = (n * 3)%nat /\
    triple_at (Curve2d.positions s') i
      = position (curve_vertex evaluate equation points i) /\
    triple_at (Curve2d.colors s') i
      = match evaluate equation (Scope_x (Curve2d.sample_x points i)) with
        | Ret _ => curve_color evaluate equation points i
        | Throw => triple_at (Curve2d.colors s) i
        end /\
    (forall j, j <> i ->
       triple_at (Curve2d.positions s') j = triple_at (Curve2d.positions s) j /\
       triple_at (Curve2d.colors s') j = triple_at (Curve2d.colors s) j).
Proof.
  intros Hi Hp Hc. destruct s as [ps cs]. cbn [Curve2d.positions Curve2d.colors] in *.
  unfold Curve2d.loop_body, try_catch, bind, call, curve_vertex, curve_value,
    curve_color, curve_gradient.
  destruct (evaluate equation (Scope_x (Curve2d.sample_x points i))) as [y|];
    cbn -[Nat.mul Nat.add rd clamp_value size lit JS.add JS.sub JS.mul JS.div];
    eexists; (split; [reflexivity|]);
    cbn [Curve2d.positions Curve2d.colors position];
    rewrite ?length_insert; repeat split; try assumption;
    unfold triple_at; intros; rd_simpl; reflexivity.
Qed.

Lemma curve_inv_step (n k : nat) (s : Curve2d.store) :
  (k < n)%nat -> curve_inv evaluate equation points n k s ->
  exists s',
    Curve2d.loop_body evaluate equation points k s = (Ret tt, s') /\
    curve_inv evaluate equation points n (S k) s'.
Proof.
  intros Hk (Hp & Hc & Hdone & Htodo).
  destruct (curve_body_step n k s Hk Hp Hc)
    as (s' & Hrun & Hp' & Hc' & Hpos & Hcol & Hother).
  exists s'. split; [exact Hrun|].
  repeat split; try assumption.
  - destruct (decide (j = k)) as [->|Hne]; [exact Hpos|].
    rewrite (proj1 (Hother j Hne)). apply Hdone. lia.
  - destruct (decide (j = k)) as [->|Hne].
    + rewrite Hcol. unfold curve_color.
      destruct (evaluate equation (Scope_x (Curve2d.sample_x points k)));
        [reflexivity|]. apply Htodo. lia.
    + rewrite (proj2 (Hother j Hne)). apply Hdone. lia.
  - intros j Hj. rewrite (proj2 (Hother j ltac:(lia))). apply Htodo. lia.
Qed.

(** The whole 2d branch: it returns, and vertex [i] is [curve_vertex i]. *)
Lemma curve_run :
  (0 <= points)%Z ->
  exists g,
    Curve2d.MathSurface evaluate equation points = Ret g /\
    isLine g = true /\
    length (g_positions g) = (Z.to_nat points * 3)%nat /\
    length (g_colors g) = (Z.to_nat points * 3)%nat /\
    forall i, (i < Z.to_nat points)%nat ->
      vertex_at g i = curve_vertex evaluate equation points i.
Proof.
  intros Hres. unfold Curve2d.MathSurface, new_Float32Array.
  replace (points * 3 <? 0)%Z with false by (symmetry; apply Z.ltb_ge; lia).
  set (n := Z.to_nat points).
  replace (Z.to_nat (points * 3)) with (n * 3)%nat by (unfold n; lia).
  unfold Curve2d.sampler. fold n.
  destruct (for_loop_invariant (curve_inv evaluate equation points n)
              (Curve2d.loop_body evaluate equation points) n 0%nat
              (Curve2d.mkStore (replicate (n * 3) (lit 0))
                               (replicate (n * 3) (lit 0))))
    as (s' & Hrun & Hp & Hc & Hdone & _).
  - repeat split; cbn [Curve2d.positions Curve2d.colors].
    + apply length_replicate.
    + apply length_replicate.
    + lia.
    + lia.
    + intros j Hj. unfold triple_at. now rewrite !rd_replicate by lia.
  - intros j t Hj Ht. apply curve_inv_step; [lia|exact Ht].
  - rewrite Hrun. eexists. split; [reflexivity|].
    cbn [g_positions g_colors isLine]. repeat split; try assumption.
    intros i Hi. unfold vertex_at. cbn [g_positions g_colors].
    destruct (Hdone i ltac:(lia)) as [-> ->]. reflexivity.
Qed.

End CurveFacts.

(** ** The 3d loops, vertex by vertex *)

Lemma flatten_length (vs : list (num * num * num)) :
  length (flatten vs) = (length vs * 3)%nat.
Proof.
  induction vs as [|v vs IH]; [reflexivity|].
  cbn. rewrite <- IH. reflexivity.
Qed.

Lemma flatten_rd (vs : list (num * num * num)) :
  forall k v, vs !! k = Some v ->
    rd (flatten vs) (k * 3) = v.1.1 /\
    rd (flatten vs) (k * 3 + 1) = v.1.2 /\
    rd (flatten vs) (k * 3 + 2) = v.2.
Proof.
  induction vs as [|w vs IH]; intros k v Hk; [discriminate|].
  destruct k as [|k].
  - injection Hk as ->. repeat split.
  - destruct (IH k v Hk) as (H1 & H2 & H3). repeat split; assumption.
Qed.

Lemma trip_count (m : nat) : ((m * 3 + 2) / 3 = m)%nat.
Proof.
  rewrite Nat.div_add_l by lia. cbn. lia.
Qed.

Section SurfaceFacts.

Variable evaluate : evaluator.
Variable equation : string.
Variable vs : list (num * num * num).

Let calls : list (outcome num) := map (surface_call evaluate equation) vs.

(** First loop, one iteration. *)
Lemma sample_body_step (k : nat) (v : num * num * num) (s : Surface3d.store) :
  vs !! k = Some v ->
  Surface3d.positions s = flatten vs ->
  Surface3d.sample_body evaluate equation (k * 3) s =
    (Ret tt,
     Surface3d.mkStore (Surface3d.positions s) (Surface3d.colors s)
       (track_min (Surface3d.minZ s) (surface_call evaluate equation v))
       (track_max (Surface3d.maxZ s) (surface_call evaluate equation v))
       (Surface3d.zValues s ++ [pushed_value (surface_call evaluate equation v)])).
Proof.
  intros Hk Hp. destruct (flatten_rd vs k v Hk) as (Hx & Hy & _).
  destruct s as [ps cs lo hi zs]. cbn [Surface3d.positions] in Hp. subst ps.
  unfold Surface3d.sample_body, bind at 1, Surface3d.get_position at 1.
  unfold bind at 1, Surface3d.get_position at 1.
  cbn [Surface3d.positions]. rewrite Hx, Hy.
  unfold surface_call, try_catch, bind, call.
  destruct (evaluate equation (Scope_xy v.1.1 v.1.2)); reflexivity.
Qed.

Lemma sample_inv_step (c0 : list num) (k : nat) (s : Surface3d.store) :
  (k < length vs)%nat -> sample_inv vs calls c0 k s ->
  exists s',
    Surface3d.sample_body evaluate equation (k * 3) s = (Ret tt, s') /\
    sample_inv vs calls c0 (S k) s'.
Proof.
  intros Hk (Hp & Hc & Hmin & Hmax & Hz).
  destruct (lookup_lt_is_Some_2 vs k Hk) as [v Hv].
  eexists. split; [apply (sample_body_step k v s Hv Hp)|].
  assert (Hcall : calls !! k = Some (surface_call evaluate equation v))
    by (unfold calls; now rewrite list_lookup_fmap, Hv).
  unfold sample_inv, tracked_minZ, tracked_maxZ.
  rewrite (take_S_r _ _ _ Hcall).
  cbn [Surface3d.positions Surface3d.colors Surface3d.minZ Surface3d.maxZ
       Surface3d.zValues].
  rewrite !fold_left_app, map_app. cbn [fold_left map].
  rewrite Hmin, Hmax, Hz. repeat split; assumption.
Qed.

(** Second loop, one iteration. *)
Lemma color_body_step (m k : nat) (z : num) (s : Surface3d.store) :
  (k < m)%nat ->
  length (Surface3d.positions s) = (m * 3)%nat ->
  length (Surface3d.colors s) = (m * 3)%nat ->
  Surface3d.zValues s !! k = Some z ->
  exists s',
    Surface3d.color_body (k * 3) s = (Ret tt, s') /\
    length (Surface3d.positions s') = (m * 3)%nat /\
    length (Surface3d.colors s') = (m * 3)%nat /\
    Surface3d.minZ s' = Surface3d.minZ s /\
    Surface3d.maxZ s' = Surface3d.maxZ s /\
    Surface3d.zValues s' = Surface3d.zValues s /\
    rd (Surface3d.positions s') (k * 3 + 2) = z /\
    triple_at (Surface3d.colors s') k
      = surface_gradient
          (Surface3d.normalizedHeight_of (Surface3d.minZ s) (Surface3d.maxZ s) z) /\
    (forall i, i <> (k * 3 + 2)%nat ->
       rd (Surface3d.positions s') i = rd (Surface3d.positions s) i) /\
    (forall j, j <> k ->
       triple_at (Surface3d.colors s') j = triple_at (Surface3d.colors s) j).
Proof.
  intros Hk Hp Hc Hz. destruct s as [ps cs lo hi zs].
  cbn [Surface3d.positions Surface3d.colors Surface3d.minZ Surface3d.maxZ
       Surface3d.zValues] in *.
  unfold Surface3d.color_body, surface_gradient.
  unfold bind at 1, Surface3d.get_zValue at 1.
  rewrite Nat.div_mul by lia. cbn [Surface3d.zValues].
  assert (Hrd : rd zs k = z) by (unfold rd; now rewrite Hz).
  rewrite Hrd.
  unfold bind at 1, Surface3d.set_position at 1.
  unfold bind at 1, Surface3d.get_minZ at 1.
  unfold bind at 1, Surface3d.get_maxZ at 1.
  cbn [Surface3d.positions Surface3d.colors Surface3d.minZ Surface3d.maxZ
       Surface3d.zValues].
  destruct (lt (Surface3d.normalizedHeight_of lo hi z) (lit 0.33));
    [|destruct (lt (Surface3d.normalizedHeight_of lo hi z) (lit 0.66))];
    (eexists; split; [reflexivity|]);
    cbn [Surface3d.positions Surface3d.colors Surface3d.minZ Surface3d.maxZ
         Surface3d.zValues];
    rewrite ?length_insert; repeat split; try assumption;
    unfold triple_at; intros; rd_simpl; reflexivity.
Qed.

Lemma color_inv_step (p0 : list num) (lo hi : num) (zs : list num)
    (m k : nat) (s : Surface3d.store) :
  (k < m)%nat -> length zs = m -> color_inv p0 lo hi zs m k s ->
  exists s',
    Surface3d.color_body (k * 3) s = (Ret tt, s') /\
    color_inv p0 lo hi zs m (S k) s'.
Proof.
  intros Hk Hm (Hp & Hc & Hlo & Hhi & Hzs & Hxy & Hdone).
  destruct (lookup_lt_is_Some_2 zs k ltac:(lia)) as [z Hz].
  destruct (color_body_step m k z s Hk Hp Hc ltac:(now rewrite Hzs))
    as (s' & Hrun & Hp' & Hc' & Hlo' & Hhi' & Hzs' & Hpz & Hcol & Hpo & Hco).
  exists s'. split; [exact Hrun|].
  unfold color_inv. repeat split; try congruence.
  - rewrite Hpo by lia. apply Hxy.
  - rewrite Hpo by lia. apply Hxy.
  - destruct (decide (j = k)) as [->|Hne]; [congruence|].
    rewrite Hpo by lia. apply Hdone; [lia|assumption].
  - destruct (decide (j = k)) as [->|Hne].
    + rewrite Hcol, Hlo, Hhi. congruence.
    + rewrite Hco by assumption. apply Hdone; [lia|assumption].
Qed.

(** Both loops: the run returns; the store holds the pushed values, the
    tracked bounds, and each vertex's final position and colour. *)
Lemma surface_run_store (c0 : list num) :
  length c0 = (length vs * 3)%nat ->
  exists s',
    Surface3d.sampler evaluate equation
      (Surface3d.mkStore (flatten vs) c0 PInf NInf []) = (Ret tt, s') /\
    length (Surface3d.positions s') = (length vs * 3)%nat /\
    length (Surface3d.colors s') = (length vs * 3)%nat /\
    Surface3d.minZ s' = tracked_minZ calls /\
    Surface3d.maxZ s' = tracked_maxZ calls /\
    Surface3d.zValues s' = map pushed_value calls /\
    forall k v, vs !! k = Some v ->
      triple_at (Surface3d.positions s') k
        = (v.1.1, v.1.2, pushed_value (surface_call evaluate equation v)) /\
      triple_at (Surface3d.colors s') k
        = surface_gradient
            (Surface3d.normalizedHeight_of (Surface3d.minZ s') (Surface3d.maxZ s')
               (pushed_value (surface_call evaluate equation v))).
Proof.
  intros Hc0. set (m := length vs).
  assert (Hcalls : length calls = m) by (unfold calls; now rewrite length_map).
  unfold Surface3d.sampler, bind, Surface3d.for_each_vertex.
  cbn [Surface3d.positions]. rewrite flatten_length, trip_count. fold m.
  destruct (for_loop_invariant (sample_inv vs calls c0)
              (fun k => Surface3d.sample_body evaluate equation (k * 3)) m 0%nat
              (Surface3d.mkStore (flatten vs) c0 PInf NInf []))
    as (s1 & Hrun1 & Hp1 & Hc1 & Hlo1 & Hhi1 & Hz1).
  { repeat split. }
  { intros j t Hj Ht. apply sample_inv_step; [unfold m in Hj; lia|exact Ht]. }
  rewrite Hrun1. cbn [Nat.add] in *.
  rewrite (take_ge calls m) in Hlo1, Hhi1, Hz1 by lia.
  rewrite Hp1, flatten_length, trip_count. fold m.
  destruct (for_loop_invariant
              (color_inv (flatten vs) (tracked_minZ calls) (tracked_maxZ calls)
                 (map pushed_value calls) m)
              (fun k => Surface3d.color_body (k * 3)) m 0%nat s1)
    as (s2 & Hrun2 & Hp2 & Hc2 & Hlo2 & Hhi2 & Hz2 & Hxy & Hdone).
  { unfold color_inv. rewrite Hp1, Hc1, flatten_length.
    repeat split; try assumption; lia. }
  { intros j t Hj Ht. apply color_inv_step; [lia| |exact Ht].
    now rewrite length_map. }
  rewrite Hrun2. exists s2. split; [reflexivity|].
  repeat split; try assumption.
  - unfold triple_at. destruct (flatten_rd vs k v H) as (Hx & Hy & _).
    destruct (Hxy k) as [-> ->]. rewrite Hx, Hy.
    destruct (Hdone k (pushed_value (surface_call evaluate equation v))) as [-> _].
    + apply lookup_lt_Some in H. fold m in H. lia.
    + unfold calls. now rewrite !list_lookup_fmap, H.
    + reflexivity.
  - rewrite Hlo2, Hhi2.
    apply (Hdone k (pushed_value (surface_call evaluate equation v))).
    + apply lookup_lt_Some in H. fold m in H. lia.
    + unfold calls. now rewrite !list_lookup_fmap, H.
Qed.

End SurfaceFacts.

(** ** Facts about clamping *)

Lemma clamp_value_within (y : num) : within (-10) 10 (clamp_value y).
Proof.
  unfold clamp_value. destruct y as [q| | |]; cbn [isFinite]; try (cbn; lra).
  unfold Math_min, lit.
  destruct (Qcompare_spec 10 q) as [H|H|H];
    unfold Math_max;
    match goal with
    | |- context [(-10) ?= ?b] => destruct (Qcompare_spec (-10) b)
    end; cbn [within]; lra.
Qed.

Lemma clamp_value_finite (v : Q) : clamp_value (Fin v) ≈ Fin (saturate v).
Proof.
  unfold clamp_value, saturate. cbn [isFinite]. unfold Math_min, lit.
  destruct (Qcompare_spec 10 v) as [H|H|H];
    unfold Math_max;
    match goal with
    | |- context [(-10) ?= ?b] => destruct (Qcompare_spec (-10) b)
    end;
    destruct (Qlt_le_dec v (-10)); try destruct (Qlt_le_dec 10 v);
    cbn [num_eq]; lra.
Qed.

Lemma clamp_value_failed (y : num) : isFinite y = false -> clamp_value y = lit 0.
Proof.
  unfold clamp_value. now intros ->.
Qed.

Lemma pushed_value_failed (o : outcome num) : failed o -> pushed_value o = lit 0.
Proof.
  destruct o as [y|]; [apply clamp_value_failed|reflexivity].
Qed.

Lemma pushed_value_within (o : outcome num) : within (-10) 10 (pushed_value o).
Proof.
  destruct o as [y|]; [apply clamp_value_within|cbn; lra].
Qed.

Lemma curve_value_pushed (evaluate : evaluator) (equation : string)
    (points : Z) (i : nat) :
  curve_value evaluate equation points i
    = pushed_value (evaluate equation (Scope_x (Curve2d.sample_x points i))).
Proof. reflexivity. Qed.

Lemma vertex_count_of_length (g : geometry) (n : nat) :
  length (g_positions g) = (n * 3)%nat -> vertex_count g = n.
Proof.
  intros H. unfold vertex_count. rewrite H. apply Nat.div_mul. lia.
Qed.

(** The 3d branch through [MathSurface]: it returns a geometry whose
    vertices are those of the final store. *)
Lemma surface_run (PlaneGeometry : plane_constructor) (evaluate : evaluator)
    (equation : string) (resolution : Z) :
  let vs := plane_vertices PlaneGeometry resolution in
  let calls := map (surface_call evaluate equation) vs in
  exists s g,
    Surface3d.run PlaneGeometry evaluate equation resolution = (Ret tt, s) /\
    Surface3d.MathSurface PlaneGeometry evaluate equation resolution = Ret g /\
    g = mkGeometry (Surface3d.positions s) (Surface3d.colors s) false /\
    vertex_count g = length vs /\
    Surface3d.minZ s = tracked_minZ calls /\
    Surface3d.maxZ s = tracked_maxZ calls /\
    Surface3d.zValues s = map pushed_value calls /\
    forall k v, vs !! k = Some v ->
      position (vertex_at g k)
        = (v.1.1, v.1.2, pushed_value (surface_call evaluate equation v)) /\
      color (vertex_at g k)
        = surface_gradient
            (Surface3d.normalizedHeight_of (Surface3d.minZ s) (Surface3d.maxZ s)
               (pushed_value (surface_call evaluate equation v))).
Proof.
  intros vs calls.
  destruct (surface_run_store evaluate equation vs
              (replicate (length (flatten vs)) (lit 0)))
    as (s & Hrun & Hp & Hc & Hlo & Hhi & Hz & Hv).
  { now rewrite length_replicate, flatten_length. }
  exists s, (mkGeometry (Surface3d.positions s) (Surface3d.colors s) false).
  assert (Hrun' : Surface3d.run PlaneGeometry evaluate equation resolution
                  = (Ret tt, s)) by exact Hrun.
  split; [exact Hrun'|]. split.
  { unfold Surface3d.MathSurface. now rewrite Hrun'. }
  split; [reflexivity|]. split.
  { apply vertex_count_of_length. exact Hp. }
  repeat split; try assumption; apply (Hv k v H).
Qed.

(** The loops themselves never throw, whatever store they start from: the
    only call that can throw sits inside a [try]. *)
Lemma curve_sampler_returns (evaluate : evaluator) (equation : string)
    (points : Z) (s : Curve2d.store) :
  exists s', Curve2d.sampler evaluate equation points s = (Ret tt, s').
Proof.
  destruct (for_loop_invariant (fun _ _ => True)
              (Curve2d.loop_body evaluate equation points)
              (Z.to_nat points) 0%nat s I) as (s' & Hrun & _).
  - intros j t _ _.
    unfold Curve2d.loop_body, try_catch, bind, call.
    destruct (evaluate equation (Scope_x (Curve2d.sample_x points j)));
      eexists; (split; [reflexivity|exact I]).
  - exists s'. exact Hrun.
Qed.

Lemma surface_sampler_returns (evaluate : evaluator) (equation : string)
    (s : Surface3d.store) :
  exists s', Surface3d.sampler evaluate equation s = (Ret tt, s').
Proof.
  unfold Surface3d.sampler, bind at 1, Surface3d.for_each_vertex.
  destruct (for_loop_invariant (fun _ _ => True)
              (fun k => Surface3d.sample_body evaluate equation (k * 3))
              ((length (Surface3d.positions s) + 2) / 3) 0%nat s I)
    as (s1 & Hrun1 & _).
  { intros j t _ _.
    unfold Surface3d.sample_body, try_catch, bind, call,
      Surface3d.get_position.
    destruct (evaluate equation _); eexists; (split; [reflexivity|exact I]). }
  rewrite Hrun1.
  destruct (for_loop_invariant (fun _ _ => True)
              (fun k => Surface3d.color_body (k * 3))
              ((length (Surface3d.positions s1) + 2) / 3) 0%nat s1 I)
    as (s2 & Hrun2 & _).
  { intros j t _ _.
    unfold Surface3d.color_body, bind, Surface3d.get_zValue,
      Surface3d.set_position, Surface3d.get_minZ, Surface3d.get_maxZ.
    cbn [Surface3d.minZ Surface3d.maxZ Surface3d.zValues].
    repeat match goal with
           | |- context [if ?c then _ else _] => destruct c
           end;
      eexists; (split; [reflexivity|exact I]). }
  exists s2. exact Hrun2.
Qed.

(** ** Claims about the sampler *)

(** C2. A sample whose evaluator call throws or returns a non-finite value
    gets the clamped value 0, and only that sample: in Curve mode (for a
    resolution the arrays can be allocated for) and in Surface mode the run
    returns a geometry with all its vertices (no exception escapes, the batch
    is not cut short), the clamped value of every sample is a function of
    that sample's own call alone, and it is therefore the same under any
    other evaluator that agrees with this one at that sample's coordinate,
    whatever the two do elsewhere.  The two sampling loops return from every
    store. *)
Theorem C2_failed_sample_is_zero_locally
    (evaluate : evaluator) (equation : string) (resolution : Z) :
  ((0 <= resolution)%Z ->
   exists g,
     MathSurface PlaneGeometry_spec evaluate equation resolution Mode2d = Ret g /\
     vertex_count g = Z.to_nat resolution /\
     forall i, (i < Z.to_nat resolution)%nat ->
       let call_i o := o equation (Scope_x (Curve2d.sample_x resolution i)) in
       (failed (call_i evaluate) ->
        clampedValue Mode2d (vertex_at g i) = lit 0) /\
       clampedValue Mode2d (vertex_at g i) = pushed_value (call_i evaluate) /\
       forall (evaluate' : evaluator) g',
         call_i evaluate' = call_i evaluate ->
         MathSurface PlaneGeometry_spec evaluate' equation resolution Mode2d
           = Ret g' ->
         clampedValue Mode2d (vertex_at g' i)
           = clampedValue Mode2d (vertex_at g i)) /\
  (forall PlaneGeometry : plane_constructor,
   exists g,
     MathSurface PlaneGeometry evaluate equation resolution Mode3d = Ret g /\
     vertex_count g = length (plane_vertices PlaneGeometry resolution) /\
     forall k v, plane_vertices PlaneGeometry resolution !! k = Some v ->
       let call_k o := o equation (Scope_xy v.1.1 v.1.2) in
       (failed (call_k evaluate) ->
        clampedValue Mode3d (vertex_at g k) = lit 0) /\
       clampedValue Mode3d (vertex_at g k) = pushed_value (call_k evaluate) /\
       forall (evaluate' : evaluator) g',
         call_k evaluate' = call_k evaluate ->
         MathSurface PlaneGeometry evaluate' equation resolution Mode3d
           = Ret g' ->
         clampedValue Mode3d (vertex_at g' k)
           = clampedValue Mode3d (vertex_at g k)) /\
  (forall s, exists s',
     Curve2d.sampler evaluate equation resolution s = (Ret tt, s')) /\
  (forall s, exists s',
     Surface3d.sampler evaluate equation s = (Ret tt, s')).
Proof.
  split; [|split; [|split;
    [apply curve_sampler_returns|apply surface_sampler_returns]]].
  - intros Hres.
    destruct (curve_run evaluate equation resolution Hres)
      as (g & Hg & _ & Hlen & _ & Hv).
    exists g. split; [exact Hg|]. split; [now apply vertex_count_of_length|].
    intros i Hi call_i.
    assert (Hval : clampedValue Mode2d (vertex_at g i)
                   = pushed_value (call_i evaluate))
      by (rewrite (Hv i Hi); reflexivity).
    split; [|split].
    + intros Hf. rewrite Hval. now apply pushed_value_failed.
    + exact Hval.
    + intros evaluate' g' Hagree Hg'.
      destruct (curve_run evaluate' equation resolution Hres)
        as (g'' & Hg'' & _ & _ & _ & Hv').
      cbn [MathSurface] in Hg'. rewrite Hg'' in Hg'. injection Hg' as <-.
      rewrite Hval, (Hv' i Hi). unfold clampedValue, vy, curve_vertex.
      cbn [position fst snd]. rewrite curve_value_pushed.
      fold (call_i evaluate'). now rewrite Hagree.
  - intros PlaneGeometry.
    destruct (surface_run PlaneGeometry evaluate equation resolution)
      as (s & g & _ & Hg & _ & Hcount & _ & _ & _ & Hv).
    exists g. split; [exact Hg|]. split; [exact Hcount|].
    intros k v Hk call_k.
    assert (Hval : clampedValue Mode3d (vertex_at g k)
                   = pushed_value (call_k evaluate)).
    { cbn [clampedValue]. unfold vz. now rewrite (proj1 (Hv k v Hk)). }
    split; [|split].
    + intros Hf. rewrite Hval. now apply pushed_value_failed.
    + exact Hval.
    + intros evaluate' g' Hagree Hg'.
      destruct (surface_run PlaneGeometry evaluate' equation resolution)
        as (s' & g'' & _ & Hg'' & _ & _ & _ & _ & _ & Hv').
      cbn [MathSurface] in Hg'. rewrite Hg'' in Hg'. injection Hg' as <-.
      rewrite Hval. cbn [clampedValue]. unfold vz.
      rewrite (proj1 (Hv' k v Hk)). cbn [snd]. unfold surface_call.
      fold (call_k evaluate'). now rewrite Hagree.
Qed.

Lemma C2_failed_sample_is_zero_locally_witness :
  (0 <= 5)%Z /\
  exists g,
    MathSurface PlaneGeometry_spec mathjs_examples "1/x"%string 5 Mode2d = Ret g /\
    failed (mathjs_examples "1/x"%string (Scope_x (Curve2d.sample_x 5 2))) /\
    clampedValue Mode2d (vertex_at g 2) = lit 0.
Proof.
  split; [lia|].
  destruct (C2_failed_sample_is_zero_locally mathjs_examples "1/x"%string 5)
    as [Hcurve _].
  destruct (Hcurve ltac:(lia)) as (g & Hg & _ & Hv).
  exists g. split; [exact Hg|].
  assert (Hf : failed (mathjs_examples "1/x"%string (Scope_x (Curve2d.sample_x 5 2))))
    by (vm_compute; reflexivity).
  split; [exact Hf|].
  destruct (Hv 2%nat ltac:(vm_compute; lia)) as (Hzero & _).
  exact (Hzero Hf).
Defined.

(** C6. A sample whose evaluation returns a finite value [v] stores [v]
    saturated into [-10, 10] (-10 below, 10 above, [v] itself in between),
    in Curve mode and in Surface mode alike, and every stored clamped value,
    of a failed sample too, lies in [-10, 10].  For [x^2] in Curve mode at
    resolution 5 the clamped heights are 10, 9, 0, 9, 10. *)
Theorem C6_finite_values_saturate
    (evaluate : evaluator) (equation : string) (resolution : Z) :
  ((0 <= resolution)%Z ->
   exists g,
     MathSurface PlaneGeometry_spec evaluate equation resolution Mode2d = Ret g /\
     forall i, (i < Z.to_nat resolution)%nat ->
       (forall v : Q,
          evaluate equation (Scope_x (Curve2d.sample_x resolution i)) = Ret (Fin v) ->
          clampedValue Mode2d (vertex_at g i) ≈ Fin (saturate v)) /\
       within (-10) 10 (clampedValue Mode2d (vertex_at g i))) /\
  (forall PlaneGeometry : plane_constructor,
   exists g,
     MathSurface PlaneGeometry evaluate equation resolution Mode3d = Ret g /\
     forall k p, plane_vertices PlaneGeometry resolution !! k = Some p ->
       (forall v : Q,
          evaluate equation (Scope_xy p.1.1 p.1.2) = Ret (Fin v) ->
          clampedValue Mode3d (vertex_at g k) ≈ Fin (saturate v)) /\
       within (-10) 10 (clampedValue Mode3d (vertex_at g k))) /\
  (exists g,
     MathSurface PlaneGeometry_spec mathjs_examples "x^2"%string 5 Mode2d = Ret g /\
     Forall2 num_eq (map (clampedValue Mode2d) (vertices g))
             [Fin 10; Fin 9; Fin 0; Fin 9; Fin 10]).
Proof.
  split; [|split].
  - intros Hres.
    destruct (curve_run evaluate equation resolution Hres)
      as (g & Hg & _ & _ & _ & Hv).
    exists g. split; [exact Hg|]. intros i Hi.
    assert (Hval : clampedValue Mode2d (vertex_at g i)
                   = pushed_value
                       (evaluate equation (Scope_x (Curve2d.sample_x resolution i))))
      by (rewrite (Hv i Hi); reflexivity).
    rewrite Hval. split; [|apply pushed_value_within].
    intros v ->. apply clamp_value_finite.
  - intros PlaneGeometry.
    destruct (surface_run PlaneGeometry evaluate equation resolution)
      as (s & g & _ & Hg & _ & _ & _ & _ & _ & Hv).
    exists g. split; [exact Hg|]. intros k p Hk.
    assert (Hval : clampedValue Mode3d (vertex_at g k)
                   = pushed_value (evaluate equation (Scope_xy p.1.1 p.1.2))).
    { cbn [clampedValue]. unfold vz. now rewrite (proj1 (Hv k p Hk)). }
    rewrite Hval. split; [|apply pushed_value_within].
    intros v ->. apply clamp_value_finite.
  - eexists. split; [vm_compute; reflexivity|].
    vm_compute. repeat constructor.
Qed.

Lemma C6_finite_values_saturate_witness :
  (0 <= 5)%Z /\
  exists g,
    MathSurface PlaneGeometry_spec mathjs_examples "x^2"%string 5 Mode2d = Ret g /\
    mathjs_examples "x^2"%string (Scope_x (Curve2d.sample_x 5 1))
      = Ret (Fin ((-12 # 4) * (-12 # 4))) /\
    clampedValue Mode2d (vertex_at g 1) ≈ Fin (saturate ((-12 # 4) * (-12 # 4))).
Proof.
  split; [lia|].
  destruct (C6_finite_values_saturate mathjs_examples "x^2"%string 5) as [Hcurve _].
  destruct (Hcurve ltac:(lia)) as (g & Hg & Hv).
  exists g. split; [exact Hg|].
  assert (He : mathjs_examples "x^2"%string (Scope_x (Curve2d.sample_x 5 1))
               = Ret (Fin ((-12 # 4) * (-12 # 4))))
    by (vm_compute; reflexivity).
  split; [exact He|].
  destruct (Hv 1%nat ltac:(vm_compute; lia)) as (Hsat & _).
  exact (Hsat _ He).
Defined.

(** ** Facts about the sampling grid *)

Lemma within_num_eq (lo hi q : Q) (a : num) :
  a ≈ Fin q -> lo <= q <= hi -> within lo hi a.
Proof.
  destruct a as [p| | |]; cbn [num_eq within]; try tauto.
  intros Hpq [H1 H2]. rewrite Hpq. split; assumption.
Qed.

Lemma denominator_positive (N : Z) : (2 <= N)%Z -> 0 < inject_Z N - 1.
Proof.
  intros H. rewrite Zle_Qle in H. change (inject_Z 2) with 2 in H. lra.
Qed.

Lemma spacing_bounds (N : Z) (i : nat) :
  (2 <= N)%Z -> (Z.of_nat i <= N - 1)%Z -> -6 <= spacing N i <= 6.
Proof.
  intros HN Hi. pose proof (denominator_positive N HN) as Hd.
  assert (H0 : 0 <= inject_Z (Z.of_nat i))
    by (change 0 with (inject_Z 0); rewrite <- Zle_Qle; lia).
  assert (H1 : inject_Z (Z.of_nat i) <= inject_Z N - 1).
  { rewrite Zle_Qle in Hi. unfold Z.sub in Hi.
    rewrite inject_Z_plus in Hi. change (inject_Z (Z.opp 1)) with (-1) in Hi.
    lra. }
  assert (Hlo : 0 <= inject_Z (Z.of_nat i) / (inject_Z N - 1))
    by (apply Qle_shift_div_l; [exact Hd|lra]).
  assert (Hhi : inject_Z (Z.of_nat i) / (inject_Z N - 1) <= 1)
    by (apply Qle_shift_div_r; [exact Hd|lra]).
  unfold spacing.
  set (r := inject_Z (Z.of_nat i) / (inject_Z N - 1)) in *. lra.
Qed.

Lemma spacing_first (N : Z) : (2 <= N)%Z -> spacing N 0 == -6.
Proof.
  intros HN. pose proof (denominator_positive N HN) as Hd.
  unfold spacing. cbn [Z.of_nat]. field. lra.
Qed.

Lemma spacing_last (N : Z) :
  (2 <= N)%Z -> spacing N (Z.to_nat N - 1) == 6.
Proof.
  intros HN. pose proof (denominator_positive N HN) as Hd.
  unfold spacing.
  replace (Z.of_nat (Z.to_nat N - 1)) with (N + -1)%Z by lia.
  rewrite inject_Z_plus. change (inject_Z (-1)) with (-1). field. lra.
Qed.

(** For [N >= 2] the divisor is not zero and the coordinate is finite. *)
Lemma sample_x_spacing (N : Z) (i : nat) :
  (2 <= N)%Z -> Curve2d.sample_x N i ≈ Fin (spacing N i).
Proof.
  intros HN. pose proof (denominator_positive N HN) as Hd.
  unfold Curve2d.sample_x, size, of_nat, of_Z, lit, sub.
  cbn [neg add]. unfold div.
  destruct (Qcompare_spec (inject_Z N + Qopp 1) 0) as [H|H|H]; try lra;
    cbn [mul add num_eq]; unfold spacing; field; lra.
Qed.

Lemma half_extent (p : Q) : (Fin p / Fin 2)%num = Fin (p / 2).
Proof. reflexivity. Qed.

Lemma axis_coordinate_spacing (N : Z) (k : nat) :
  (2 <= N)%Z ->
  axis_coordinate (size * lit 2)%num (N - 1) k ≈ Fin (spacing N k).
Proof.
  intros HN. pose proof (denominator_positive N HN) as Hd.
  assert (Hinj : inject_Z (N - 1) == inject_Z N - 1).
  { unfold Z.sub. rewrite inject_Z_plus. change (inject_Z (Z.opp 1)) with (-1).
    lra. }
  unfold axis_coordinate, size, of_nat, of_Z.
  unfold lit. cbn [mul]. rewrite half_extent. unfold div.
  destruct (Qcompare_spec (inject_Z (N - 1)) 0) as [H|H|H]; try lra;
    cbn [neg mul add num_eq]; unfold spacing; rewrite Hinj; field; lra.
Qed.

Lemma grid_length {A : Type} (f : nat -> nat -> A) (cols : nat) :
  forall rows a,
    length (flat_map (fun iy => map (f iy) (seq 0 cols)) (seq a rows))
      = (rows * cols)%nat.
Proof.
  induction rows as [|rows IH]; intros a; [reflexivity|].
  cbn [seq flat_map]. rewrite length_app, length_map, length_seq, IH.
  reflexivity.
Qed.

(** Row-major addressing of the grid. *)
Lemma grid_lookup {A : Type} (f : nat -> nat -> A) (cols : nat) :
  forall rows a iy ix,
    (iy < rows)%nat -> (ix < cols)%nat ->
    flat_map (fun iy => map (f iy) (seq 0 cols)) (seq a rows)
      !! (iy * cols + ix)%nat = Some (f (a + iy)%nat ix).
Proof.
  induction rows as [|rows IH]; intros a iy ix Hy Hx; [lia|].
  cbn [seq flat_map]. destruct iy as [|iy].
  - rewrite lookup_app_l by (rewrite length_map, length_seq; lia).
    cbn [Nat.mul Nat.add]. rewrite Nat.add_0_r.
    change (map (f a) (seq 0 cols)) with (f a <$> seq 0 cols).
    rewrite list_lookup_fmap, lookup_seq_lt by lia. reflexivity.
  - rewrite lookup_app_r by (rewrite length_map, length_seq; lia).
    rewrite length_map, length_seq.
    replace (S iy * cols + ix - cols)%nat with (iy * cols + ix)%nat by lia.
    rewrite IH by lia. f_equal. f_equal. lia.
Qed.

Lemma plane_spec_length (N : Z) :
  length (plane_vertices PlaneGeometry_spec N)
    = (Z.to_nat N * Z.to_nat N)%nat.
Proof.
  unfold plane_vertices, PlaneGeometry_spec.
  replace (N - 1 + 1)%Z with N by lia. apply grid_length.
Qed.

Lemma plane_spec_lookup (N : Z) (iy ix : nat) :
  (iy < Z.to_nat N)%nat -> (ix < Z.to_nat N)%nat ->
  plane_vertices PlaneGeometry_spec N !! (iy * Z.to_nat N + ix)%nat
    = Some (axis_coordinate (size * lit 2)%num (N - 1) ix,
            axis_coordinate (size * lit 2)%num (N - 1) iy,
            lit 0).
Proof.
  intros Hy Hx. unfold plane_vertices, PlaneGeometry_spec.
  replace (N - 1 + 1)%Z with N by lia.
  rewrite (grid_lookup
             (fun iy ix => (axis_coordinate (size * lit 2)%num (N - 1) ix,
                            axis_coordinate (size * lit 2)%num (N - 1) iy,
                            lit 0))) by assumption.
  reflexivity.
Qed.

(** ** Claims about the domain sampler *)

(** C7. For a resolution [N >= 2], Curve mode emits exactly [N] vertices
    whose x-coordinates are [-6 + (i / (N - 1)) * 12], the first being -6 and
    the last 6; Surface mode, on the grid of the specification, emits exactly
    [N * N] vertices in row-major order (vertex [iy * N + ix] sits at column
    [ix] and row [iy] of the same spacing), every coordinate lies in
    [-6, 6], and the first and last vertices are the corners (-6, -6) and
    (6, 6). *)
Theorem C7_vertex_count_and_span
    (evaluate : evaluator) (equation : string) (N : Z) :
  (2 <= N)%Z ->
  (exists g,
     MathSurface PlaneGeometry_spec evaluate equation N Mode2d = Ret g /\
     vertex_count g = Z.to_nat N /\
     length (vertices g) = Z.to_nat N /\
     (forall i, (i < Z.to_nat N)%nat ->
        vx (vertex_at g i) ≈ Fin (spacing N i)) /\
     vx (vertex_at g 0) ≈ Fin (-6) /\
     vx (vertex_at g (Z.to_nat N - 1)) ≈ Fin 6) /\
  (exists g,
     MathSurface PlaneGeometry_spec evaluate equation N Mode3d = Ret g /\
     vertex_count g = (Z.to_nat N * Z.to_nat N)%nat /\
     length (vertices g) = (Z.to_nat N * Z.to_nat N)%nat /\
     (forall iy ix, (iy < Z.to_nat N)%nat -> (ix < Z.to_nat N)%nat ->
        let v := vertex_at g (iy * Z.to_nat N + ix) in
        vx v ≈ Fin (spacing N ix) /\ vy v ≈ Fin (spacing N iy) /\
        within (-6) 6 (vx v) /\ within (-6) 6 (vy v)) /\
     (vx (vertex_at g 0) ≈ Fin (-6) /\ vy (vertex_at g 0) ≈ Fin (-6)) /\
     (vx (vertex_at g (Z.to_nat N * Z.to_nat N - 1)) ≈ Fin 6 /\
      vy (vertex_at g (Z.to_nat N * Z.to_nat N - 1)) ≈ Fin 6)).
Proof.
  intros HN. set (n := Z.to_nat N). split.
  - destruct (curve_run evaluate equation N ltac:(lia))
      as (g & Hg & _ & Hlen & _ & Hv).
    assert (Hcount : vertex_count g = n) by now apply vertex_count_of_length.
    assert (Hx : forall i, (i < n)%nat -> vx (vertex_at g i) ≈ Fin (spacing N i)).
    { intros i Hi. rewrite (Hv i Hi). unfold vx, curve_vertex.
      cbn [position fst]. now apply sample_x_spacing. }
    exists g. split; [exact Hg|]. split; [exact Hcount|]. split.
    { unfold vertices. now rewrite length_map, length_seq. }
    split; [exact Hx|]. split.
    + pose proof (Hx 0%nat ltac:(unfold n; lia)) as H0.
      destruct (vx (vertex_at g 0)); cbn [num_eq] in *; try tauto.
      rewrite H0. now apply spacing_first.
    + pose proof (Hx (n - 1)%nat ltac:(unfold n; lia)) as H1.
      destruct (vx (vertex_at g (n - 1))); cbn [num_eq] in *; try tauto.
      rewrite H1. now apply spacing_last.
  - destruct (surface_run PlaneGeometry_spec evaluate equation N)
      as (s & g & _ & Hg & _ & Hcount & _ & _ & _ & Hv).
    rewrite plane_spec_length in Hcount. fold n in Hcount.
    assert (Hxy : forall iy ix, (iy < n)%nat -> (ix < n)%nat ->
              vx (vertex_at g (iy * n + ix)) ≈ Fin (spacing N ix) /\
              vy (vertex_at g (iy * n + ix)) ≈ Fin (spacing N iy)).
    { intros iy ix Hy Hx.
      destruct (Hv _ _ (plane_spec_lookup N iy ix Hy Hx)) as [Hpos _].
      fold n in Hpos. unfold vx, vy. rewrite Hpos. cbn [fst snd].
      split; now apply axis_coordinate_spacing. }
    exists g. split; [exact Hg|]. split; [exact Hcount|]. split.
    { unfold vertices. now rewrite length_map, length_seq. }
    split; [|split].
    + intros iy ix Hy Hx v. destruct (Hxy iy ix Hy Hx) as [H1 H2].
      repeat split; try assumption.
      * apply (within_num_eq _ _ _ _ H1), spacing_bounds; lia.
      * apply (within_num_eq _ _ _ _ H2), spacing_bounds; lia.
    + destruct (Hxy 0%nat 0%nat ltac:(unfold n; lia) ltac:(unfold n; lia))
        as [H1 H2].
      cbn [Nat.mul Nat.add] in H1, H2. split.
      * destruct (vx (vertex_at g 0)); cbn [num_eq] in *; try tauto.
        rewrite H1. now apply spacing_first.
      * destruct (vy (vertex_at g 0)); cbn [num_eq] in *; try tauto.
        rewrite H2. now apply spacing_first.
    + destruct (Hxy (n - 1)%nat (n - 1)%nat ltac:(unfold n; lia)
                  ltac:(unfold n; lia)) as [H1 H2].
      replace ((n - 1) * n + (n - 1))%nat with (n * n - 1)%nat in H1, H2 by nia.
      split.
      * destruct (vx (vertex_at g (n * n - 1))); cbn [num_eq] in *; try tauto.
        rewrite H1. now apply spacing_last.
      * destruct (vy (vertex_at g (n * n - 1))); cbn [num_eq] in *; try tauto.
        rewrite H2. now apply spacing_last.
Qed.

Lemma C7_vertex_count_and_span_witness :
  (2 <= 5)%Z /\
  exists g,
    MathSurface PlaneGeometry_spec mathjs_examples "x^2"%string 5 Mode2d = Ret g /\
    vertex_count g = 5%nat /\
    vx (vertex_at g 0) ≈ Fin (-6) /\
    vx (vertex_at g 4) ≈ Fin 6.
Proof.
  split; [lia|].
  destruct (C7_vertex_count_and_span mathjs_examples "x^2"%string 5 ltac:(lia))
    as [(g & Hg & Hcount & _ & _ & Hfirst & Hlast) _].
  exists g. repeat split; assumption.
Defined.

(** ** Claims about the colour mapper *)

Lemma div_positive (p d : Q) : 0 < d -> (Fin p / Fin d)%num = Fin (p / d).
Proof.
  intros Hd. unfold div. destruct (Qcompare_spec d 0); [lra|lra|reflexivity].
Qed.

Lemma surface_gradient_three_band (t : num) :
  same_color (surface_gradient t) (three_band t).
Proof.
  destruct t as [q| | |]; try (vm_compute; tauto).
  unfold surface_gradient, three_band, lit, lt.
  destruct (q ?= 0.33); [| |];
    try destruct (q ?= 0.66);
    cbn [sub add neg]; rewrite !div_positive by reflexivity;
    cbn [sub add neg mul]; unfold same_color; cbn [fst snd num_eq];
    repeat split; try reflexivity; field.
Qed.

(** C8. In Surface mode the colour of every vertex is the three-band map,
    with its literal constants 0.33, 0.66 and 0.34, applied to the vertex's
    normalised height. *)
Theorem C8_surface_colour_bands
    (PlaneGeometry : plane_constructor) (evaluate : evaluator)
    (equation : string) (resolution : Z) :
  exists s g,
    Surface3d.run PlaneGeometry evaluate equation resolution = (Ret tt, s) /\
    MathSurface PlaneGeometry evaluate equation resolution Mode3d = Ret g /\
    forall k, (k < vertex_count g)%nat ->
      let t := Surface3d.normalizedHeight_of
                 (Surface3d.minZ s) (Surface3d.maxZ s)
                 (clampedValue Mode3d (vertex_at g k)) in
      same_color (color (vertex_at g k)) (three_band t).
Proof.
  destruct (surface_run PlaneGeometry evaluate equation resolution)
    as (s & g & Hrun & Hg & _ & Hcount & _ & _ & _ & Hv).
  exists s, g. split; [exact Hrun|]. split; [exact Hg|].
  intros k Hk. rewrite Hcount in Hk.
  destruct (lookup_lt_is_Some_2 _ k Hk) as [v Hlook].
  destruct (Hv k v Hlook) as [Hpos Hcol].
  cbn [clampedValue]. unfold vz. rewrite Hpos, Hcol. cbn [snd].
  apply surface_gradient_three_band.
Qed.

Lemma C8_surface_colour_bands_witness :
  exists s g,
    Surface3d.run PlaneGeometry_spec mathjs_examples "x*y / 4"%string 3
      = (Ret tt, s) /\
    MathSurface PlaneGeometry_spec mathjs_examples "x*y / 4"%string 3 Mode3d
      = Ret g /\
    (0 < vertex_count g)%nat /\
    same_color (color (vertex_at g 0))
      (three_band (Surface3d.normalizedHeight_of
                     (Surface3d.minZ s) (Surface3d.maxZ s)
                     (clampedValue Mode3d (vertex_at g 0)))).
Proof.
  destruct (C8_surface_colour_bands PlaneGeometry_spec mathjs_examples
              "x*y / 4"%string 3) as (s & g & Hrun & Hg & Hk).
  exists s, g. split; [exact Hrun|]. split; [exact Hg|].
  assert (Hpos : (0 < vertex_count g)%nat).
  { cbn [MathSurface] in Hg. vm_compute in Hg. injection Hg as <-.
    vm_compute. lia. }
  split; [exact Hpos|]. exact (Hk 0%nat Hpos).
Defined.

(** ** Claims about the handlers of [App] *)

(** C9. The typed expression becomes the active equation only if the trial
    evaluation (at x = 1 in 2d, at x = 1, y = 1 in 3d) does not throw.  When
    it throws, the configuration handed to [MathSurface], and with it the
    geometry, stays as it was and the error text is set; when it returns, the
    expression is installed and the error cleared.  The handler itself never
    throws. *)
Theorem C9_commit_only_after_trial (evaluate : evaluator) (s : App.state) :
  (forall input,
     App.trial evaluate input Mode2d = evaluate input (Scope_x (lit 1)) /\
     App.trial evaluate input Mode3d
       = evaluate input (Scope_xy (lit 1) (lit 1))) /\
  exists s',
    App.handleEquationUpdate evaluate s = (Ret tt, s') /\
    App.app_mode s' = App.app_mode s /\
    App.resolution s' = App.resolution s /\
    match App.trial evaluate (App.inputValue s) (App.app_mode s) with
    | Ret _ =>
        App.equation s' = App.inputValue s /\ App.error s' = ""%string
    | Throw =>
        App.configuration s' = App.configuration s /\
        (forall PlaneGeometry,
           App.rendered PlaneGeometry evaluate s'
             = App.rendered PlaneGeometry evaluate s) /\
        App.error s' = "Invalid equation syntax"%string
    end /\
    (App.configuration s' <> App.configuration s ->
     exists v, App.trial evaluate (App.inputValue s) (App.app_mode s) = Ret v).
Proof.
  split; [intros input; split; reflexivity|].
  destruct s as [m eq input res err info].
  unfold App.handleEquationUpdate, bind, App.get_inputValue, App.get_mode,
    try_catch, call.
  cbn [App.inputValue App.app_mode].
  destruct (App.trial evaluate input m) as [v|];
    (eexists; split; [reflexivity|]);
    cbn [App.app_mode App.resolution App.equation App.error App.inputValue];
    repeat split.
  - intros _. now exists v.
  - intros H. exfalso. apply H. reflexivity.
Qed.

Lemma C9_commit_only_after_trial_witness :
  exists s',
    App.handleEquationUpdate mathjs_examples state_with_typo = (Ret tt, s') /\
    App.trial mathjs_examples "sin(x" Mode2d = Throw /\
    App.configuration s' = App.configuration state_with_typo /\
    App.error s' = "Invalid equation syntax"%string.
Proof.
  destruct (C9_commit_only_after_trial mathjs_examples state_with_typo)
    as (_ & s' & Hrun & _ & _ & Hcase & _).
  exists s'. split; [exact Hrun|]. split; [reflexivity|].
  change (App.trial mathjs_examples (App.inputValue state_with_typo)
            (App.app_mode state_with_typo))
    with (@Throw num) in Hcase.
  destruct Hcase as (Hconf & _ & Herr). split; assumption.
Defined.

(** C10. Selecting a preset installs it as input text and as active
    equation at once and clears the error, whatever the evaluator would say:
    no trial evaluation takes place, so a text that [handleEquationUpdate]
    would reject when typed is installed all the same. *)
Theorem C10_preset_skips_trial (presetEquation : string) (s : App.state) :
  exists s',
    App.handlePresetSelect presetEquation s = (Ret tt, s') /\
    App.equation s' = presetEquation /\
    App.inputValue s' = presetEquation /\
    App.error s' = ""%string /\
    App.app_mode s' = App.app_mode s /\
    App.resolution s' = App.resolution s /\
    forall evaluate : evaluator,
      App.trial evaluate presetEquation (App.app_mode s) = Throw ->
      exists s'',
        App.handleEquationUpdate evaluate (typed presetEquation s)
          = (Ret tt, s'') /\
        App.equation s'' = App.equation s /\
        App.error s'' = "Invalid equation syntax"%string.
Proof.
  destruct s as [m eq input res err info].
  eexists. split; [reflexivity|].
  cbn [App.app_mode App.resolution App.equation App.error App.inputValue].
  repeat split.
  intros evaluate Htrial.
  unfold App.handleEquationUpdate, bind, App.get_inputValue, App.get_mode,
    try_catch, call, typed.
  cbn [App.setInputValue App.inputValue App.app_mode snd].
  rewrite Htrial. eexists. split; [reflexivity|]. split; reflexivity.
Qed.

Lemma C10_preset_skips_trial_witness :
  App.trial mathjs_examples "sin(x" (App.app_mode state_at_rest) = Throw /\
  (exists s',
     App.handlePresetSelect "sin(x" state_at_rest = (Ret tt, s') /\
     App.equation s' = "sin(x"%string /\ App.error s' = ""%string) /\
  (exists s'',
     App.handleEquationUpdate mathjs_examples (typed "sin(x" state_at_rest)
       = (Ret tt, s'') /\
     App.equation s'' = "sin(x)"%string /\
     App.error s'' = "Invalid equation syntax"%string).
Proof.
  assert (Htrial : App.trial mathjs_examples "sin(x" (App.app_mode state_at_rest)
                   = Throw)
    by reflexivity.
  destruct (C10_preset_skips_trial "sin(x" state_at_rest)
    as (s' & Hrun & Heq & _ & Herr & _ & _ & Hbypass).
  split; [exact Htrial|]. split.
  - exists s'. repeat split; assumption.
  - exact (Hbypass mathjs_examples Htrial).
Defined.

(** ** Where the code leaves the specification *)

(** What does hold of the midpoint rule: equal tracked bounds give 0.5. *)
Lemma normalizedHeight_midpoint (lo hi z : num) :
  strict_ne hi lo = false -> Surface3d.normalizedHeight_of lo hi z = lit 0.5.
Proof.
  unfold Surface3d.normalizedHeight_of. now intros ->.
Qed.

Lemma not_within_above (lo hi q : Q) : hi < q -> ~ within lo hi (Fin q).
Proof. cbn [within]. lra. Qed.

Lemma not_within_below (lo hi q : Q) : q < lo -> ~ within lo hi (Fin q).
Proof. cbn [within]. lra. Qed.

(** C1 (the code departs from it).  Curve mode normalises the height with
    the half-width 6 although heights are clamped to [-10, 10]: for the
    preset [x^2] at resolution 30 the first vertex has height 10, red
    19/15 > 1 and green -1/15 < 0.  Surface mode leaves thrown samples out of
    [minZ]/[maxZ]: for [x > 0 ? y + 8 : foo] the first vertex (x = -6, a
    thrown sample of height 0, below the tracked minimum 2) gets negative red
    and green. *)
Theorem C1_colour_channels_leave_unit_interval :
  (exists g,
     MathSurface PlaneGeometry_spec mathjs_examples "x^2"%string 30 Mode2d
       = Ret g /\
     clampedValue Mode2d (vertex_at g 0) = Fin 10 /\
     same_color (color (vertex_at g 0)) (Fin (19 # 15), Fin (-1 # 15), Fin 0.2) /\
     ~ within 0 1 (color (vertex_at g 0)).1.1 /\
     ~ within 0 1 (color (vertex_at g 0)).1.2) /\
  (exists s g,
     Surface3d.run PlaneGeometry_spec mathjs_examples
       "x > 0 ? y + 8 : foo"%string 30 = (Ret tt, s) /\
     MathSurface PlaneGeometry_spec mathjs_examples
       "x > 0 ? y + 8 : foo"%string 30 Mode3d = Ret g /\
     Surface3d.minZ s ≈ Fin 2 /\
     Surface3d.maxZ s ≈ Fin 10 /\
     clampedValue Mode3d (vertex_at g 0) = lit 0 /\
     ~ within 0 1 (color (vertex_at g 0)).1.1 /\
     ~ within 0 1 (color (vertex_at g 0)).1.2).
Proof.
  split.
  - destruct (curve_run mathjs_examples "x^2"%string 30 ltac:(lia))
      as (g & Hg & _ & _ & _ & Hv).
    exists g. split; [exact Hg|].
    rewrite (Hv 0%nat ltac:(vm_compute; lia)).
    split; [vm_compute; reflexivity|].
    split; [vm_compute; repeat split; reflexivity|].
    split.
    + change (~ within 0 1 (Fin (1520 # 1200))). apply not_within_above. lra.
    + change (~ within 0 1 (Fin (-80 # 1200))). apply not_within_below. lra.
  - destruct (surface_run PlaneGeometry_spec mathjs_examples
                "x > 0 ? y + 8 : foo"%string 30)
      as (s & g & Hrun & Hg & _ & _ & Hlo & Hhi & _ & Hv).
    exists s, g. split; [exact Hrun|]. split; [exact Hg|].
    assert (Hlo' : Surface3d.minZ s = Fin (116 # 58))
      by (rewrite Hlo; vm_compute; reflexivity).
    assert (Hhi' : Surface3d.maxZ s = Fin 10)
      by (rewrite Hhi; vm_compute; reflexivity).
    split; [rewrite Hlo'; reflexivity|]. split; [rewrite Hhi'; reflexivity|].
    destruct (Hv 0%nat _ (plane_spec_lookup 30 0 0 ltac:(vm_compute; lia)
                            ltac:(vm_compute; lia))) as [Hpos Hcol].
    rewrite Hlo', Hhi' in Hcol.
    cbn [clampedValue]. unfold vz. rewrite Hpos, Hcol. cbn [snd].
    split; [vm_compute; reflexivity|].
    split.
    + change (~ within 0 1 (Fin (-2691200 # 8880960))).
      apply not_within_below. lra.
    + change (~ within 0 1 (Fin (-4844160 # 88809600))).
      apply not_within_below. lra.
Qed.

(** C3 (the code departs from it).  [minZ] and [maxZ] are updated inside the
    [try] only, so a sample whose call throws is pushed as 0 without being
    tracked.  For [x > 0 ? 1 : foo] (accepted by the trial at x = 1, y = 1)
    the first grid sample has the clamped value 0 while the tracked minimum
    is 1.  For [x == 1 ? 0 : foo] (accepted as well) every sample of the
    30 x 30 grid throws: all clamped values are 0, yet the bounds stay at
    +Infinity and -Infinity, differ, and the normalised height of every
    vertex is NaN instead of 0.5, which colours it (0.9, NaN, NaN). *)
Theorem C3_thrown_samples_escape_min_max :
  (exists s,
     Surface3d.run PlaneGeometry_spec mathjs_examples
       "x > 0 ? 1 : foo"%string 30 = (Ret tt, s) /\
     App.trial mathjs_examples "x > 0 ? 1 : foo"%string Mode3d = Ret (lit 1) /\
     rd (Surface3d.zValues s) 0 = lit 0 /\
     Surface3d.minZ s = Fin 1 /\
     Surface3d.maxZ s = Fin 1) /\
  (exists s g,
     Surface3d.run PlaneGeometry_spec mathjs_examples
       "x == 1 ? 0 : foo"%string 30 = (Ret tt, s) /\
     MathSurface PlaneGeometry_spec mathjs_examples
       "x == 1 ? 0 : foo"%string 30 Mode3d = Ret g /\
     App.trial mathjs_examples "x == 1 ? 0 : foo"%string Mode3d = Ret (lit 0) /\
     vertex_count g = 900%nat /\
     Surface3d.zValues s = replicate 900 (lit 0) /\
     Surface3d.minZ s = PInf /\
     Surface3d.maxZ s = NInf /\
     Forall
       (fun k =>
          clampedValue Mode3d (vertex_at g k) = lit 0 /\
          Surface3d.normalizedHeight_of (Surface3d.minZ s) (Surface3d.maxZ s)
            (clampedValue Mode3d (vertex_at g k)) = NaN /\
          color (vertex_at g k) = (Fin 0.9, NaN, NaN))
       (seq 0 900)).
Proof.
  split.
  - destruct (surface_run PlaneGeometry_spec mathjs_examples
                "x > 0 ? 1 : foo"%string 30)
      as (s & g & Hrun & _ & _ & _ & Hlo & Hhi & Hz & _).
    exists s. split; [exact Hrun|]. split; [reflexivity|].
    rewrite Hlo, Hhi, Hz. repeat split; vm_compute; reflexivity.
  - destruct (surface_run PlaneGeometry_spec mathjs_examples
                "x == 1 ? 0 : foo"%string 30)
      as (s & g & Hrun & Hg & _ & Hcount & Hlo & Hhi & Hz & Hv).
    assert (Hz' : Surface3d.zValues s = replicate 900 (lit 0))
      by (rewrite Hz; vm_compute; reflexivity).
    assert (Hlo' : Surface3d.minZ s = PInf)
      by (rewrite Hlo; vm_compute; reflexivity).
    assert (Hhi' : Surface3d.maxZ s = NInf)
      by (rewrite Hhi; vm_compute; reflexivity).
    rewrite plane_spec_length in Hcount.
    exists s, g. split; [exact Hrun|]. split; [exact Hg|].
    split; [reflexivity|]. split; [exact Hcount|].
    split; [exact Hz'|]. split; [exact Hlo'|]. split; [exact Hhi'|].
    apply List.Forall_forall. intros k Hin. apply in_seq in Hin.
    assert (Hk : (k < 900)%nat) by lia.
    destruct (lookup_lt_is_Some_2 (plane_vertices PlaneGeometry_spec 30) k)
      as [v Hlook]; [rewrite plane_spec_length; vm_compute; lia|].
    destruct (Hv k v Hlook) as [Hpos Hcol].
    assert (Hzero : pushed_value (surface_call mathjs_examples
                                    "x == 1 ? 0 : foo"%string v) = lit 0).
    { assert (Hk' : Surface3d.zValues s !! k
                    = Some (pushed_value (surface_call mathjs_examples
                                            "x == 1 ? 0 : foo"%string v))).
      { rewrite Hz.
        change (map pushed_value ?l) with (pushed_value <$> l).
        change (map ?f ?l) with (f <$> l).
        now rewrite !list_lookup_fmap, Hlook. }
      rewrite Hz', lookup_replicate_2 in Hk' by exact Hk. congruence. }
    cbn [clampedValue]. unfold vz. rewrite Hpos, Hcol, Hzero, Hlo', Hhi'.
    cbn [snd]. repeat split.
Qed.

Lemma curve_gradient_is_claim (p : num) :
  within (-10) 10 p -> same_color (curve_gradient p) (curve_gradient_claim p).
Proof.
  destruct p as [q| | |]; cbn [within]; try tauto. intros _.
  unfold curve_gradient, curve_gradient_claim, size, lit.
  cbn [add mul]. rewrite !div_positive by reflexivity.
  cbn [sub add neg mul]. unfold same_color. cbn [fst snd num_eq].
  repeat split; try reflexivity; field.
Qed.

(** What does hold in Curve mode: a sample whose call returns, with a finite
    result or not, is coloured by the rule. *)
Lemma curve_colour_of_returned_sample
    (evaluate : evaluator) (equation : string) (resolution : Z) (i : nat)
    (y : num) :
  (0 <= resolution)%Z -> (i < Z.to_nat resolution)%nat ->
  evaluate equation (Scope_x (Curve2d.sample_x resolution i)) = Ret y ->
  exists g,
    MathSurface PlaneGeometry_spec evaluate equation resolution Mode2d = Ret g /\
    same_color (color (vertex_at g i))
      (curve_gradient_claim (clampedValue Mode2d (vertex_at g i))).
Proof.
  intros Hres Hi Hy.
  destruct (curve_run evaluate equation resolution Hres)
    as (g & Hg & _ & _ & _ & Hv).
  exists g. split; [exact Hg|]. rewrite (Hv i Hi).
  unfold clampedValue, vy, curve_vertex, curve_color, curve_value.
  cbn [position color fst snd]. rewrite Hy.
  apply curve_gradient_is_claim, clamp_value_within.
Qed.

(** C4 (the code departs from it).  The [catch] block of the 2d loop writes
    the position only.  For [x > 0 ? 1 : foo] at resolution 30 the call at
    the first sample (x = -6) throws: the vertex gets the clamped value 0 and
    keeps the colour (0, 0, 0) of the fresh array, where the rule gives
    (0.6, 0.6, 0.2) for the value 0. *)
Theorem C4_thrown_curve_sample_stays_black :
  exists g,
    MathSurface PlaneGeometry_spec mathjs_examples "x > 0 ? 1 : foo"%string
      30 Mode2d = Ret g /\
    mathjs_examples "x > 0 ? 1 : foo"%string (Scope_x (Curve2d.sample_x 30 0))
      = Throw /\
    clampedValue Mode2d (vertex_at g 0) = lit 0 /\
    color (vertex_at g 0) = (lit 0, lit 0, lit 0) /\
    same_color (curve_gradient_claim (lit 0)) (Fin 0.6, Fin 0.6, Fin 0.2) /\
    ~ same_color (color (vertex_at g 0))
        (curve_gradient_claim (clampedValue Mode2d (vertex_at g 0))).
Proof.
  destruct (curve_run mathjs_examples "x > 0 ? 1 : foo"%string 30 ltac:(lia))
    as (g & Hg & _ & _ & _ & Hv).
  exists g. split; [exact Hg|].
  rewrite (Hv 0%nat ltac:(vm_compute; lia)).
  split; [reflexivity|]. split; [reflexivity|]. split; [reflexivity|].
  split; [vm_compute; repeat split; reflexivity|].
  intros (_ & _ & Hblue). vm_compute in Hblue. discriminate Hblue.
Qed.

(** C5 fails as stated: at resolution 1 the curve has a single vertex. *)
Lemma C5_counterexample :
  ~ two_point_segment
      (MathSurface PlaneGeometry_spec mathjs_examples "x^2"%string 1 Mode2d).
Proof.
  intros (g & Hg & Hcount & _).
  vm_compute in Hg. injection Hg as <-. vm_compute in Hcount. discriminate.
Qed.

(** C5, amended.  The resolution is used as given, with no defensive
    minimum: for [N >= 0] Curve mode emits exactly [N] vertices, so none at
    resolution 0 and, at resolution 1, a single vertex whose x is NaN (the
    quotient 0/0); from [N = 2] on every vertex has a finite x in [-6, 6] and a
    finite height in [-10, 10].  A negative resolution makes the array
    allocation throw. *)
Theorem C5_resolution_used_as_given
    (evaluate : evaluator) (equation : string) (resolution : Z) :
  ((resolution < 0)%Z ->
   MathSurface PlaneGeometry_spec evaluate equation resolution Mode2d = Throw) /\
  ((0 <= resolution)%Z ->
   exists g,
     MathSurface PlaneGeometry_spec evaluate equation resolution Mode2d = Ret g /\
     vertex_count g = Z.to_nat resolution /\
     (resolution = 1%Z -> vx (vertex_at g 0) = NaN) /\
     ((2 <= resolution)%Z ->
      forall i, (i < Z.to_nat resolution)%nat ->
        within (-6) 6 (vx (vertex_at g i)) /\
        within (-10) 10 (vy (vertex_at g i)) /\
        vz (vertex_at g i) = lit 0)).
Proof.
  split.
  - intros Hneg. cbn [MathSurface].
    unfold Curve2d.MathSurface, new_Float32Array.
    replace (resolution * 3 <? 0)%Z with true
      by (symmetry; apply Z.ltb_lt; lia).
    reflexivity.
  - intros Hres.
    destruct (curve_run evaluate equation resolution Hres)
      as (g & Hg & _ & Hlen & _ & Hv).
    exists g. split; [exact Hg|].
    split; [now apply vertex_count_of_length|]. split.
    + intros ->. rewrite (Hv 0%nat ltac:(vm_compute; lia)). reflexivity.
    + intros H2 i Hi. rewrite (Hv i Hi).
      unfold vx, vy, vz, curve_vertex. cbn [position fst snd].
      split; [|split; [|reflexivity]].
      * apply (within_num_eq _ _ _ _ (sample_x_spacing resolution i H2)).
        apply spacing_bounds; lia.
      * rewrite curve_value_pushed. apply pushed_value_within.
Qed.

Lemma C5_resolution_used_as_given_witness :
  (0 <= 1)%Z /\
  exists g,
    MathSurface PlaneGeometry_spec mathjs_examples "x^2"%string 1 Mode2d = Ret g /\
    vertex_count g = 1%nat /\
    vx (vertex_at g 0) = NaN.
Proof.
  split; [lia|].
  destruct (C5_resolution_used_as_given mathjs_examples "x^2"%string 1)
    as [_ Hpos].
  destruct (Hpos ltac:(lia)) as (g & Hg & Hcount & Hnan & _).
  exists g. split; [exact Hg|]. split; [exact Hcount|].
  exact (Hnan eq_refl).
Defined.

(** ** The page as a state machine *)

Lemma handle_returns (evaluate : evaluator) (a : action) (s : App.state) :
  (handle evaluate a s).1 = Ret tt.
Proof.
  destruct s as [m eq input res err info]. destruct a; try reflexivity.
  - cbn. destruct (App.trial evaluate input m); reflexivity.
  - cbn. destruct (App.trial evaluate input m); reflexivity.
  - cbn. destruct (currentPresets m !! i); reflexivity.
  - destruct m; reflexivity.
Qed.

Lemma handle_keeps_fit (evaluate : evaluator) (a : action) (s : App.state) :
  fits_mode evaluate s -> fits_mode evaluate (handle evaluate a s).2.
Proof.
  destruct s as [m eq input res err info]. intros Hfit.
  destruct a; try exact Hfit.
  - cbn. destruct (App.trial evaluate input m) as [v|] eqn:Htrial;
      [|exact Hfit].
    right. exists v. exact Htrial.
  - cbn. destruct (App.trial evaluate input m) as [v|] eqn:Htrial;
      [|exact Hfit].
    right. exists v. exact Htrial.
  - cbn. destruct (currentPresets m !! i) as [p|] eqn:Hlook; [|exact Hfit].
    left. exists p. split; [|reflexivity].
    apply list_elem_of_In. eapply list_elem_of_lookup_2. exact Hlook.
  - left. destruct m; cbn; eexists; (split; [left; reflexivity|reflexivity]).
Qed.

Lemma handle_keeps_known_error (evaluate : evaluator) (a : action)
    (s : App.state) :
  known_error s -> known_error (handle evaluate a s).2.
Proof.
  destruct s as [m eq input res err info]. intros Herr.
  destruct a; try exact Herr.
  - cbn. destruct (App.trial evaluate input m); [left|right]; reflexivity.
  - cbn. destruct (App.trial evaluate input m); [left|right]; reflexivity.
  - cbn. destruct (currentPresets m !! i); [left; reflexivity|exact Herr].
  - destruct m; exact Herr.
Qed.

(** X12.  Whatever the user does, starting from the page as it loads, the active
    equation always belongs to the current mode (a preset of that mode, or a
    text whose trial evaluation in that mode returned), and the error cell
    holds nothing or the single message of the page. *)
Theorem active_equation_fits_mode (evaluate : evaluator) (events : list action) :
  fits_mode evaluate (after evaluate events App.initial) /\
  known_error (after evaluate events App.initial).
Proof.
  unfold after.
  assert (Hinit : fits_mode evaluate App.initial /\ known_error App.initial).
  { split; [|left; reflexivity].
    left. eexists. split; [left; reflexivity|reflexivity]. }
  revert Hinit. generalize App.initial.
  induction events as [|a events IH]; intros s [Hfit Herr]; [split; assumption|].
  cbn [fold_left]. apply IH. split.
  - now apply handle_keeps_fit.
  - now apply handle_keeps_known_error.
Qed.

Lemma handle_keeps_resolution (evaluate : evaluator) (a : action)
    (s : App.state) :
  slider_in_range a ->
  (30 <= App.resolution s <= 150)%Z ->
  (30 <= App.resolution (handle evaluate a s).2 <= 150)%Z.
Proof.
  destruct s as [m eq input res err info]. intros Ha Hres.
  destruct a; try exact Hres.
  - cbn. destruct (App.trial evaluate input m); exact Hres.
  - cbn. destruct (App.trial evaluate input m); exact Hres.
  - cbn. destruct (currentPresets m !! i); exact Hres.
  - destruct m; exact Hres.
  - exact Ha.
Qed.

Lemma resolution_stays_in_range (evaluate : evaluator) (events : list action) :
  Forall slider_in_range events ->
  (30 <= App.resolution (after evaluate events App.initial) <= 150)%Z.
Proof.
  unfold after.
  assert (Hinit : (30 <= App.resolution App.initial <= 150)%Z) by (cbn; lia).
  revert Hinit. generalize App.initial.
  induction events as [|a events IH]; intros s Hs Hall; [exact Hs|].
  cbn [fold_left]. apply Forall_cons in Hall as [Ha Hall].
  apply IH; [|exact Hall]. now apply handle_keeps_resolution.
Qed.

(** X13.  Under the slider's range the resolution stays between 30 and 150, so the
    component always returns a geometry: in 2d one vertex per unit of
    resolution, each with a finite x in [-6, 6] and a finite height in
    [-10, 10]; in 3d one vertex per vertex of the plane. *)
Theorem slider_keeps_geometry_defined
    (PlaneGeometry : plane_constructor) (evaluate : evaluator)
    (events : list action) :
  Forall slider_in_range events ->
  let s := after evaluate events App.initial in
  (30 <= App.resolution s <= 150)%Z /\
  exists g,
    App.rendered PlaneGeometry evaluate s = Ret g /\
    (App.app_mode s = Mode2d ->
     vertex_count g = Z.to_nat (App.resolution s) /\
     forall i, (i < vertex_count g)%nat ->
       within (-6) 6 (vx (vertex_at g i)) /\
       within (-10) 10 (vy (vertex_at g i))) /\
    (App.app_mode s = Mode3d ->
     vertex_count g
       = length (plane_vertices PlaneGeometry (App.resolution s))).
Proof.
  intros Hall s.
  pose proof (resolution_stays_in_range evaluate events Hall) as Hres.
  fold s in Hres. split; [exact Hres|].
  unfold App.rendered, MathSurface. destruct (App.app_mode s) eqn:Hmode.
  - destruct (curve_run evaluate (App.equation s) (App.resolution s)
                ltac:(lia)) as (g & Hg & _ & Hlen & _ & Hv).
    pose proof (vertex_count_of_length g _ Hlen) as Hcount.
    exists g. split; [exact Hg|]. split; [|discriminate].
    intros _. split; [exact Hcount|]. intros i Hi. rewrite Hcount in Hi.
    rewrite (Hv i Hi). unfold vx, vy, curve_vertex. cbn [position fst snd].
    split.
    + apply (within_num_eq _ _ _ _
               (sample_x_spacing (App.resolution s) i ltac:(lia))).
      apply spacing_bounds; lia.
    + rewrite curve_value_pushed. apply pushed_value_within.
  - destruct (surface_run PlaneGeometry evaluate (App.equation s)
                (App.resolution s))
      as (st & g & _ & Hg & _ & Hcount & _).
    exists g. split; [exact Hg|]. split; [discriminate|].
    intros _. exact Hcount.
Qed.

Lemma slider_keeps_geometry_defined_witness :
  Forall slider_in_range [ClickToggle; MoveSlider 30; TypeText "x^2"; ClickRender] /\
  let s := after mathjs_examples
             [ClickToggle; MoveSlider 30; TypeText "x^2"; ClickRender]
             App.initial in
  App.configuration s = ("x^2"%string, 30%Z, Mode2d) /\
  exists g,
    App.rendered PlaneGeometry_spec mathjs_examples s = Ret g /\
    vertex_count g = 30%nat.
Proof.
  assert (Hall : Forall slider_in_range
                   [ClickToggle; MoveSlider 30; TypeText "x^2"; ClickRender])
    by (repeat constructor; cbn; lia).
  split; [exact Hall|]. intros s. split; [reflexivity|].
  destruct (slider_keeps_geometry_defined PlaneGeometry_spec mathjs_examples
              _ Hall) as (_ & g & Hg & H2d & _).
  exists g. split; [exact Hg|]. exact (proj1 (H2d eq_refl)).
Defined.



(** X15.  [toggleMode] never throws and never calls the evaluator: it switches to
    the other mode, puts that mode's default equation both in the input box
    and on screen, and leaves resolution, info panel and error message as
    they were, so an error raised before the switch stays displayed.
    Toggling twice comes back to the same mode with its default equation: it
    restores the state only if that default was already active and typed. *)
Theorem toggle_resets_equation_keeps_error (s : App.state) :
  exists s1 s2,
    App.toggleMode s = (Ret tt, s1) /\
    App.app_mode s1 = other_mode (App.app_mode s) /\
    App.equation s1 = default_equation (App.app_mode s1) /\
    App.inputValue s1 = App.equation s1 /\
    App.error s1 = App.error s /\
    App.resolution s1 = App.resolution s /\
    App.showInfo s1 = App.showInfo s /\
    App.toggleMode s1 = (Ret tt, s2) /\
    App.app_mode s2 = App.app_mode s /\
    App.equation s2 = default_equation (App.app_mode s) /\
    (s2 = s <->
     App.equation s = default_equation (App.app_mode s) /\
     App.inputValue s = default_equation (App.app_mode s)).
Proof.
  destruct s as [m eq input res err info].
  set (s := App.mkState m eq input res err info).
  exists (App.toggleMode s).2, (App.toggleMode (App.toggleMode s).2).2.
  subst s. destruct m; cbn;
    (do 10 (split; [reflexivity|]));
    (split; [intros H; injection H; intros; subst; split; reflexivity|]);
    intros [-> ->]; reflexivity.
Qed.

Lemma toggle_resets_equation_keeps_error_witness :
  exists s1,
    App.toggleMode (App.handleEquationUpdate mathjs_examples state_with_typo).2
      = (Ret tt, s1) /\
    App.app_mode s1 = Mode3d /\
    App.equation s1 = "sin(sqrt(x*x + y*y))"%string /\
    App.error s1 = "Invalid equation syntax"%string.
Proof.
  destruct (toggle_resets_equation_keeps_error
              (App.handleEquationUpdate mathjs_examples state_with_typo).2)
    as (s1 & s2 & Hrun & Hmode & Heq & _ & Herr & _).
  exists s1. split; [exact Hrun|]. split; [exact Hmode|].
  split; [rewrite Heq, Hmode; reflexivity|]. rewrite Herr. reflexivity.
Defined.

(** ** More about the 2d sampler *)

Ltac const_inv c :=
  let v := eval vm_compute in (/ c) in
  lazymatch v with
  | (_ # _) => change (/ c) with v in *
  end.

(** Turns divisions by literals into multiplications, for [lra]. *)
Ltac const_div :=
  unfold Qdiv in *;
  repeat match goal with
         | |- context [/ ?c] => const_inv c
         | H : context [/ ?c] |- _ => const_inv c
         end.

Lemma num_eq_fin (x : num) (q : Q) :
  x ≈ Fin q -> exists a, x = Fin a /\ a == q.
Proof.
  destruct x as [a| | |]; cbn [num_eq]; try tauto. intros H. now exists a.
Qed.

Lemma inject_Z_succ (i : nat) :
  inject_Z (Z.of_nat (S i)) == inject_Z (Z.of_nat i) + 1.
Proof.
  rewrite Nat2Z.inj_succ, <- Z.add_1_r, inject_Z_plus. reflexivity.
Qed.

Lemma spacing_step (N : Z) (i : nat) :
  (2 <= N)%Z -> spacing N (S i) - spacing N i == 12 / (inject_Z N - 1).
Proof.
  intros HN. pose proof (denominator_positive N HN) as Hd.
  unfold spacing. rewrite inject_Z_succ. field. lra.
Qed.

Lemma spacing_mirror (N : Z) (i : nat) :
  (2 <= N)%Z -> (i < Z.to_nat N)%nat ->
  spacing N (Z.to_nat N - 1 - i) == - spacing N i.
Proof.
  intros HN Hi. pose proof (denominator_positive N HN) as Hd.
  unfold spacing.
  replace (Z.of_nat (Z.to_nat N - 1 - i)) with (N + (Z.opp 1 + - Z.of_nat i))%Z
    by lia.
  rewrite !inject_Z_plus, !inject_Z_opp.
  change (inject_Z 1) with 1. field. lra.
Qed.

Lemma spacing_middle (m : Z) :
  (1 <= m)%Z -> spacing (2 * m + 1) (Z.to_nat m) == 0.
Proof.
  intros Hm.
  assert (Hpos : 0 < inject_Z m).
  { change 0 with (inject_Z 0). rewrite <- Zlt_Qlt. lia. }
  unfold spacing. rewrite Z2Nat.id by lia.
  rewrite inject_Z_plus, inject_Z_mult.
  change (inject_Z 2) with 2. change (inject_Z 1) with 1. field. lra.
Qed.

(** X1.  The x-coordinates of the curve advance from left to right by the constant
    step [12 / (N - 1)]. *)
Theorem curve_x_advances_by_constant_step
    (evaluate : evaluator) (equation : string) (N : Z) :
  (2 <= N)%Z ->
  exists g,
    MathSurface PlaneGeometry_spec evaluate equation N Mode2d = Ret g /\
    forall i, (S i < Z.to_nat N)%nat ->
      exists a b,
        vx (vertex_at g i) = Fin a /\
        vx (vertex_at g (S i)) = Fin b /\
        b - a == 12 / (inject_Z N - 1) /\
        a < b.
Proof.
  intros HN. pose proof (denominator_positive N HN) as Hd.
  destruct (curve_run evaluate equation N ltac:(lia))
    as (g & Hg & _ & _ & _ & Hv).
  exists g. split; [exact Hg|]. intros i Hi.
  rewrite (Hv i ltac:(lia)), (Hv (S i) Hi).
  unfold vx, curve_vertex. cbn [position fst].
  destruct (num_eq_fin _ _ (sample_x_spacing N i HN)) as (a & -> & Ha).
  destruct (num_eq_fin _ _ (sample_x_spacing N (S i) HN)) as (b & -> & Hb).
  exists a, b. split; [reflexivity|]. split; [reflexivity|].
  assert (Hstep : b - a == 12 / (inject_Z N - 1))
    by (rewrite Ha, Hb; now apply spacing_step).
  split; [exact Hstep|].
  assert (Hgap : 0 < 12 / (inject_Z N - 1))
    by (apply Qlt_shift_div_l; [exact Hd|lra]).
  lra.
Qed.

Lemma curve_x_advances_by_constant_step_witness :
  (2 <= 5)%Z /\
  exists g,
    MathSurface PlaneGeometry_spec mathjs_examples "x^2"%string 5 Mode2d = Ret g /\
    exists a b,
      vx (vertex_at g 0) = Fin a /\ vx (vertex_at g 1) = Fin b /\
      b - a == 12 / (inject_Z 5 - 1) /\ a < b.
Proof.
  split; [lia|].
  destruct (curve_x_advances_by_constant_step mathjs_examples "x^2"%string 5
              ltac:(lia)) as (g & Hg & Hstep).
  exists g. split; [exact Hg|]. apply (Hstep 0%nat). vm_compute. lia.
Defined.

(** X2.  The sampling of the x-axis is symmetric about 0: sample [N - 1 - i] is the
    mirror image of sample [i], and for an odd resolution the middle sample
    is exactly x = 0. *)
Theorem curve_x_symmetric_about_zero
    (evaluate : evaluator) (equation : string) (N : Z) :
  (2 <= N)%Z ->
  exists g,
    MathSurface PlaneGeometry_spec evaluate equation N Mode2d = Ret g /\
    (forall i, (i < Z.to_nat N)%nat ->
       exists a b,
         vx (vertex_at g i) = Fin a /\
         vx (vertex_at g (Z.to_nat N - 1 - i)) = Fin b /\
         b == - a) /\
    (forall m, N = (2 * m + 1)%Z -> vx (vertex_at g (Z.to_nat m)) ≈ Fin 0).
Proof.
  intros HN.
  destruct (curve_run evaluate equation N ltac:(lia))
    as (g & Hg & _ & _ & _ & Hv).
  exists g. split; [exact Hg|]. split.
  - intros i Hi.
    rewrite (Hv i Hi), (Hv (Z.to_nat N - 1 - i)%nat ltac:(lia)).
    unfold vx, curve_vertex. cbn [position fst].
    destruct (num_eq_fin _ _ (sample_x_spacing N i HN)) as (a & -> & Ha).
    destruct (num_eq_fin _ _
                (sample_x_spacing N (Z.to_nat N - 1 - i) HN)) as (b & -> & Hb).
    exists a, b. split; [reflexivity|]. split; [reflexivity|].
    rewrite Ha, Hb. now apply spacing_mirror.
  - intros m ->.
    rewrite (Hv (Z.to_nat m) ltac:(lia)).
    unfold vx, curve_vertex. cbn [position fst].
    destruct (num_eq_fin _ _
                (sample_x_spacing (2 * m + 1) (Z.to_nat m) HN)) as (a & -> & Ha).
    cbn [num_eq]. rewrite Ha. apply spacing_middle. lia.
Qed.

Lemma curve_x_symmetric_about_zero_witness :
  (2 <= 5)%Z /\
  exists g,
    MathSurface PlaneGeometry_spec mathjs_examples "1/x"%string 5 Mode2d = Ret g /\
    vx (vertex_at g 2) ≈ Fin 0.
Proof.
  split; [lia|].
  destruct (curve_x_symmetric_about_zero mathjs_examples "1/x"%string 5
              ltac:(lia)) as (g & Hg & _ & Hmid).
  exists g. split; [exact Hg|]. exact (Hmid 2%Z eq_refl).
Defined.

(** ** More about the 2d colours *)

Lemma clamp_value_fin (y : num) :
  exists q, clamp_value y = Fin q /\ -10 <= q <= 10.
Proof.
  pose proof (clamp_value_within y) as H.
  destruct (clamp_value y) as [q| | |]; cbn [within] in H; try tauto.
  now exists q.
Qed.

Lemma curve_gradient_fin (h : Q) :
  exists r g,
    curve_gradient (Fin h) = (Fin r, Fin g, Fin 0.2) /\
    r == 0.6 + h / 15 /\ g == 0.6 - h / 15.
Proof.
  unfold curve_gradient, size, lit. cbn [add mul].
  rewrite !div_positive by reflexivity. cbn [sub add neg mul].
  do 2 eexists. split; [reflexivity|]. split; field.
Qed.

Lemma saturate_monotone (a b : Q) : a <= b -> saturate a <= saturate b.
Proof.
  intros Hab. unfold saturate.
  destruct (Qlt_le_dec a (-10)), (Qlt_le_dec b (-10));
    try destruct (Qlt_le_dec 10 a); try destruct (Qlt_le_dec 10 b); lra.
Qed.

(** X3.  The colour of a curve sample whose call returned lies on one line of
    colour space: blue is 0.2, red is [0.6 + h / 15] and green [0.6 - h / 15]
    for the clamped height [h], so red and green add up to 1.2; the three
    channels are all in [0, 1] exactly when [h] is in [-6, 6]. *)
Theorem curve_colour_on_a_line
    (evaluate : evaluator) (equation : string) (resolution : Z) (i : nat)
    (y : num) :
  (0 <= resolution)%Z -> (i < Z.to_nat resolution)%nat ->
  evaluate equation (Scope_x (Curve2d.sample_x resolution i)) = Ret y ->
  exists g h r gr,
    MathSurface PlaneGeometry_spec evaluate equation resolution Mode2d = Ret g /\
    clampedValue Mode2d (vertex_at g i) = Fin h /\
    color (vertex_at g i) = (Fin r, Fin gr, Fin 0.2) /\
    r == 0.6 + h / 15 /\
    gr == 0.6 - h / 15 /\
    r + gr == 1.2 /\
    ((0 <= r <= 1 /\ 0 <= gr <= 1) <-> -6 <= h <= 6).
Proof.
  intros Hres Hi Hy.
  destruct (curve_run evaluate equation resolution Hres)
    as (g & Hg & _ & _ & _ & Hv).
  destruct (clamp_value_fin y) as (h & Hh & Hrange).
  destruct (curve_gradient_fin h) as (r & gr & Hcol & Hr & Hgr).
  exists g, h, r, gr. split; [exact Hg|]. rewrite (Hv i Hi).
  unfold clampedValue, vy, curve_vertex, curve_value, curve_color.
  cbn [position color fst snd]. rewrite Hy, Hh.
  split; [reflexivity|]. split; [exact Hcol|].
  split; [exact Hr|]. split; [exact Hgr|].
  const_div. split; [lra|]. split.
  - intros [[? ?] [? ?]]. lra.
  - intros [? ?]. lra.
Qed.

Lemma curve_colour_on_a_line_witness :
  (0 <= 5)%Z /\
  exists g h r gr,
    MathSurface PlaneGeometry_spec mathjs_examples "x^2"%string 5 Mode2d = Ret g /\
    clampedValue Mode2d (vertex_at g 1) = Fin h /\
    color (vertex_at g 1) = (Fin r, Fin gr, Fin 0.2) /\
    r + gr == 1.2.
Proof.
  split; [lia|].
  destruct (curve_colour_on_a_line mathjs_examples "x^2"%string 5 1
              (Fin ((-12 # 4) * (-12 # 4))) ltac:(lia) ltac:(vm_compute; lia)
              ltac:(vm_compute; reflexivity))
    as (g & h & r & gr & Hg & Hh & Hcol & _ & _ & Hsum & _).
  exists g, h, r, gr. repeat split; assumption.
Defined.

(** X4.  The curve's colour follows the raw value monotonically: of two samples
    with finite results [a <= b], the second has the higher (or equal)
    clamped height, at least as much red and at most as much green. *)
Theorem curve_colour_monotone
    (evaluate : evaluator) (equation : string) (resolution : Z) (i j : nat)
    (a b : Q) :
  (0 <= resolution)%Z ->
  (i < Z.to_nat resolution)%nat -> (j < Z.to_nat resolution)%nat ->
  evaluate equation (Scope_x (Curve2d.sample_x resolution i)) = Ret (Fin a) ->
  evaluate equation (Scope_x (Curve2d.sample_x resolution j)) = Ret (Fin b) ->
  a <= b ->
  exists g hi ri gi hj rj gj,
    MathSurface PlaneGeometry_spec evaluate equation resolution Mode2d = Ret g /\
    clampedValue Mode2d (vertex_at g i) = Fin hi /\
    clampedValue Mode2d (vertex_at g j) = Fin hj /\
    color (vertex_at g i) = (Fin ri, Fin gi, Fin 0.2) /\
    color (vertex_at g j) = (Fin rj, Fin gj, Fin 0.2) /\
    hi <= hj /\ ri <= rj /\ gj <= gi.
Proof.
  intros Hres Hi Hj Ha Hb Hab.
  destruct (curve_run evaluate equation resolution Hres)
    as (g & Hg & _ & _ & _ & Hv).
  destruct (num_eq_fin _ _ (clamp_value_finite a)) as (hi & Hhi & Hi').
  destruct (num_eq_fin _ _ (clamp_value_finite b)) as (hj & Hhj & Hj').
  destruct (curve_gradient_fin hi) as (ri & gi & Hci & Hri & Hgi).
  destruct (curve_gradient_fin hj) as (rj & gj & Hcj & Hrj & Hgj).
  exists g, hi, ri, gi, hj, rj, gj. split; [exact Hg|].
  rewrite (Hv i Hi), (Hv j Hj).
  unfold clampedValue, vy, curve_vertex, curve_value, curve_color.
  cbn [position color fst snd]. rewrite Ha, Hb, Hhi, Hhj.
  split; [reflexivity|]. split; [reflexivity|].
  split; [exact Hci|]. split; [exact Hcj|].
  pose proof (saturate_monotone a b Hab) as Hmono.
  const_div. repeat split; lra.
Qed.

Lemma curve_colour_monotone_witness :
  (0 <= 5)%Z /\
  exists g hi ri gi hj rj gj,
    MathSurface PlaneGeometry_spec mathjs_examples "x^2"%string 5 Mode2d = Ret g /\
    clampedValue Mode2d (vertex_at g 2) = Fin hi /\
    clampedValue Mode2d (vertex_at g 1) = Fin hj /\
    color (vertex_at g 2) = (Fin ri, Fin gi, Fin 0.2) /\
    color (vertex_at g 1) = (Fin rj, Fin gj, Fin 0.2) /\
    hi <= hj /\ ri <= rj /\ gj <= gi.
Proof.
  split; [lia|].
  apply (curve_colour_monotone mathjs_examples "x^2"%string 5 2 1
           ((0 # 4) * (0 # 4)) ((-12 # 4) * (-12 # 4)));
    vm_compute; try lia; try reflexivity; discriminate.
Defined.

(** ** More about the 3d sampler *)

Lemma track_min_least (l : list num) (acc : num) (o : outcome num) :
  least_of l acc -> least_of (l ++ returned_values [o]) (track_min acc o).
Proof.
  intros Hacc. destruct o as [z|]; cbn [returned_values flat_map track_min];
    rewrite app_nil_r; [|exact Hacc].
  destruct (clamp_value_fin z) as (q & -> & _).
  destruct acc as [m| | |]; cbn [least_of] in Hacc; try tauto.
  - destruct Hacc as [Hin Hlow]. unfold Math_min.
    destruct (Qcompare_spec m q) as [Hc|Hc|Hc]; cbn [least_of].
    + split; [apply in_or_app; now left|].
      intros x Hx. apply in_app_or in Hx as [Hx|[<-|[]]]; [now apply Hlow|].
      exists q. split; [reflexivity|lra].
    + split; [apply in_or_app; now left|].
      intros x Hx. apply in_app_or in Hx as [Hx|[<-|[]]]; [now apply Hlow|].
      exists q. split; [reflexivity|lra].
    + split; [apply in_or_app; right; now left|].
      intros x Hx. apply in_app_or in Hx as [Hx|[<-|[]]].
      * destruct (Hlow x Hx) as (p & -> & Hp). exists p.
        split; [reflexivity|lra].
      * exists q. split; [reflexivity|lra].
  - subst l. cbn [Math_min least_of app]. split; [now left|].
    intros x [<-|[]]. exists q. split; [reflexivity|lra].
Qed.

Lemma track_max_greatest (l : list num) (acc : num) (o : outcome num) :
  greatest_of l acc -> greatest_of (l ++ returned_values [o]) (track_max acc o).
Proof.
  intros Hacc. destruct o as [z|]; cbn [returned_values flat_map track_max];
    rewrite app_nil_r; [|exact Hacc].
  destruct (clamp_value_fin z) as (q & -> & _).
  destruct acc as [m| | |]; cbn [greatest_of] in Hacc; try tauto.
  - destruct Hacc as [Hin Hup]. unfold Math_max.
    destruct (Qcompare_spec m q) as [Hc|Hc|Hc]; cbn [greatest_of].
    + split; [apply in_or_app; now left|].
      intros x Hx. apply in_app_or in Hx as [Hx|[<-|[]]]; [now apply Hup|].
      exists q. split; [reflexivity|lra].
    + split; [apply in_or_app; right; now left|].
      intros x Hx. apply in_app_or in Hx as [Hx|[<-|[]]].
      * destruct (Hup x Hx) as (p & -> & Hp). exists p.
        split; [reflexivity|lra].
      * exists q. split; [reflexivity|lra].
    + split; [apply in_or_app; now left|].
      intros x Hx. apply in_app_or in Hx as [Hx|[<-|[]]]; [now apply Hup|].
      exists q. split; [reflexivity|lra].
  - subst l. cbn [Math_max greatest_of app]. split; [now left|].
    intros x [<-|[]]. exists q. split; [reflexivity|lra].
Qed.

Lemma returned_values_app (l1 l2 : list (outcome num)) :
  returned_values (l1 ++ l2) = returned_values l1 ++ returned_values l2.
Proof. unfold returned_values. apply flat_map_app. Qed.

Lemma fold_track_min_least (os : list (outcome num)) :
  forall pre acc,
    least_of (returned_values pre) acc ->
    least_of (returned_values (pre ++ os)) (fold_left track_min os acc).
Proof.
  induction os as [|o os IH]; intros pre acc Hacc.
  - now rewrite app_nil_r.
  - cbn [fold_left].
    replace (pre ++ o :: os) with ((pre ++ [o]) ++ os)
      by (now rewrite <- app_assoc).
    apply IH. rewrite returned_values_app. now apply track_min_least.
Qed.

Lemma fold_track_max_greatest (os : list (outcome num)) :
  forall pre acc,
    greatest_of (returned_values pre) acc ->
    greatest_of (returned_values (pre ++ os)) (fold_left track_max os acc).
Proof.
  induction os as [|o os IH]; intros pre acc Hacc.
  - now rewrite app_nil_r.
  - cbn [fold_left].
    replace (pre ++ o :: os) with ((pre ++ [o]) ++ os)
      by (now rewrite <- app_assoc).
    apply IH. rewrite returned_values_app. now apply track_max_greatest.
Qed.

Lemma tracked_minZ_least (os : list (outcome num)) :
  least_of (returned_values os) (tracked_minZ os).
Proof. apply (fold_track_min_least os [] PInf). reflexivity. Qed.

Lemma tracked_maxZ_greatest (os : list (outcome num)) :
  greatest_of (returned_values os) (tracked_maxZ os).
Proof. apply (fold_track_max_greatest os [] NInf). reflexivity. Qed.

Lemma returned_values_in (os : list (outcome num)) (x : num) :
  In x (returned_values os) <-> exists z, In (Ret z) os /\ x = clamp_value z.
Proof.
  unfold returned_values. rewrite in_flat_map. split.
  - intros ([z|] & Ho & Hx); [|destruct Hx].
    destruct Hx as [<-|[]]. now exists z.
  - intros (z & Ho & ->). exists (Ret z). split; [exact Ho|now left].
Qed.

Lemma calls_in_lookup (evaluate : evaluator) (equation : string)
    (vs : list (num * num * num)) (o : outcome num) :
  In o (map (surface_call evaluate equation) vs) <->
  exists k v, vs !! k = Some v /\ surface_call evaluate equation v = o.
Proof.
  rewrite in_map_iff. split.
  - intros (v & Ho & Hin). apply list_elem_of_In, list_elem_of_lookup_1 in Hin.
    destruct Hin as [k Hk]. now exists k, v.
  - intros (k & v & Hk & Ho). exists v. split; [exact Ho|].
    apply list_elem_of_In. eapply list_elem_of_lookup_2. exact Hk.
Qed.

Lemma normalized_height_in_unit (lo hi h : Q) :
  lo <= h <= hi ->
  exists t,
    Surface3d.normalizedHeight_of (Fin lo) (Fin hi) (Fin h) = Fin t /\
    0 <= t <= 1 /\
    (hi == lo -> t == 0.5) /\
    (~ hi == lo -> h == lo -> t == 0) /\
    (~ hi == lo -> h == hi -> t == 1).
Proof.
  intros [Hlo Hhi]. unfold Surface3d.normalizedHeight_of, strict_ne.
  cbn [num_eqb]. destruct (Qeq_bool hi lo) eqn:Heq; cbn [negb].
  - apply Qeq_bool_iff in Heq. exists 0.5. split; [reflexivity|].
    split; [lra|]. split; [reflexivity|]. split; intros Hne; now destruct Hne.
  - apply Qeq_bool_neq in Heq.
    assert (Hgap : 0 < hi + - lo).
    { destruct (Qlt_le_dec lo hi) as [Hlt|Hle]; [lra|].
      exfalso. apply Heq. lra. }
    cbn [sub add neg]. rewrite div_positive by exact Hgap.
    exists ((h + - lo) / (hi + - lo)). split; [reflexivity|].
    split; [split|].
    + apply Qle_shift_div_l; [exact Hgap|lra].
    + apply Qle_shift_div_r; [exact Hgap|lra].
    + split; [intros Hsame; now destruct Heq|].
      split; intros _ Hh; rewrite Hh; field; lra.
Qed.

(** The colour of a finite normalised height, band by band. *)
Lemma surface_gradient_fin (t : Q) :
  exists r g b,
    surface_gradient (Fin t) = (Fin r, Fin g, Fin b) /\
    ((t < 0.33 /\ r == t / 0.33 * 0.4 /\ g == 0.4 + t / 0.33 * 0.6 /\ b == 0.9) \/
     (0.33 <= t /\ t < 0.66 /\
      r == 0.4 + (t - 0.33) / 0.33 * 0.5 /\ g == 0.9 /\
      b == 0.9 - (t - 0.33) / 0.33 * 0.6) \/
     (0.66 <= t /\
      r == 0.9 /\ g == 0.9 - (t - 0.66) / 0.34 * 0.6 /\
      b == 0.3 - (t - 0.66) / 0.34 * 0.2)).
Proof.
  unfold surface_gradient, lit, lt.
  destruct (Qcompare_spec t 0.33) as [H1|H1|H1];
    try destruct (Qcompare_spec t 0.66) as [H2|H2|H2];
    cbn [sub add neg]; rewrite !div_positive by reflexivity;
    cbn [sub add neg mul]; do 3 eexists; (split; [reflexivity|]);
    first
      [ solve [left; repeat split; first [lra|field]]
      | solve [right; left; repeat split; first [lra|field]]
      | solve [right; right; repeat split; first [lra|field]]
      | exfalso; lra ].
Qed.

Lemma surface_gradient_in_unit (t : Q) :
  0 <= t <= 1 ->
  exists r g b,
    surface_gradient (Fin t) = (Fin r, Fin g, Fin b) /\
    0 <= r <= 1 /\ 0 <= g <= 1 /\ 0 <= b <= 1.
Proof.
  intros Ht. destruct (surface_gradient_fin t) as (r & g & b & Hcol & Hband).
  exists r, g, b. split; [exact Hcol|].
  const_div.
  destruct Hband as [(? & ? & ? & ?)|[(? & ? & ? & ? & ?)|(? & ? & ? & ?)]];
    repeat split; lra.
Qed.

(** What the final store and geometry of a 3d run satisfy, gathered for the
    statements below. *)
Lemma surface_run_bounds (PlaneGeometry : plane_constructor)
    (evaluate : evaluator) (equation : string) (resolution : Z) :
  let vs := plane_vertices PlaneGeometry resolution in
  let calls := map (surface_call evaluate equation) vs in
  exists s g,
    Surface3d.run PlaneGeometry evaluate equation resolution = (Ret tt, s) /\
    MathSurface PlaneGeometry evaluate equation resolution Mode3d = Ret g /\
    vertex_count g = length vs /\
    least_of (returned_values calls) (Surface3d.minZ s) /\
    greatest_of (returned_values calls) (Surface3d.maxZ s) /\
    forall k v, vs !! k = Some v ->
      clampedValue Mode3d (vertex_at g k)
        = pushed_value (surface_call evaluate equation v) /\
      color (vertex_at g k)
        = surface_gradient
            (Surface3d.normalizedHeight_of (Surface3d.minZ s) (Surface3d.maxZ s)
               (clampedValue Mode3d (vertex_at g k))).
Proof.
  intros vs calls.
  destruct (surface_run PlaneGeometry evaluate equation resolution)
    as (s & g & Hrun & Hg & _ & Hcount & Hlo & Hhi & _ & Hv).
  exists s, g. split; [exact Hrun|]. split; [exact Hg|].
  split; [exact Hcount|]. split; [rewrite Hlo; apply tracked_minZ_least|].
  split; [rewrite Hhi; apply tracked_maxZ_greatest|].
  intros k v Hk. destruct (Hv k v Hk) as [Hpos Hcol].
  assert (Hval : clampedValue Mode3d (vertex_at g k)
                 = pushed_value (surface_call evaluate equation v))
    by (cbn [clampedValue]; unfold vz; now rewrite Hpos).
  split; [exact Hval|]. now rewrite Hval.
Qed.

(** X5.  In Surface mode [minZ] and [maxZ] are the least and the greatest clamped
    value among the samples whose call returned: every such sample lies
    between them, each bound is the height of some such vertex, and when no
    call returns at all they keep their initial values +Infinity and
    -Infinity. *)
Theorem surface_bounds_are_extremes_of_returned
    (PlaneGeometry : plane_constructor) (evaluate : evaluator)
    (equation : string) (resolution : Z) :
  let vs := plane_vertices PlaneGeometry resolution in
  exists s g,
    Surface3d.run PlaneGeometry evaluate equation resolution = (Ret tt, s) /\
    MathSurface PlaneGeometry evaluate equation resolution Mode3d = Ret g /\
    (forall k v z,
       vs !! k = Some v -> evaluate equation (Scope_xy v.1.1 v.1.2) = Ret z ->
       exists lo hi h,
         Surface3d.minZ s = Fin lo /\ Surface3d.maxZ s = Fin hi /\
         clampedValue Mode3d (vertex_at g k) = Fin h /\ lo <= h <= hi /\
         (exists k1 v1 z1,
            vs !! k1 = Some v1 /\
            evaluate equation (Scope_xy v1.1.1 v1.1.2) = Ret z1 /\
            clampedValue Mode3d (vertex_at g k1) = Surface3d.minZ s) /\
         (exists k2 v2 z2,
            vs !! k2 = Some v2 /\
            evaluate equation (Scope_xy v2.1.1 v2.1.2) = Ret z2 /\
            clampedValue Mode3d (vertex_at g k2) = Surface3d.maxZ s)) /\
    ((forall k v, vs !! k = Some v ->
        evaluate equation (Scope_xy v.1.1 v.1.2) = Throw) ->
     Surface3d.minZ s = PInf /\ Surface3d.maxZ s = NInf).
Proof.
  intros vs.
  destruct (surface_run_bounds PlaneGeometry evaluate equation resolution)
    as (s & g & Hrun & Hg & _ & Hmin & Hmax & Hv).
  fold vs in Hmin, Hmax, Hv.
  exists s, g. split; [exact Hrun|]. split; [exact Hg|]. split.
  - intros k v z Hk Hz.
    assert (Hin : In (clamp_value z)
                    (returned_values (map (surface_call evaluate equation) vs))).
    { apply returned_values_in. exists z. split; [|reflexivity].
      apply calls_in_lookup. now exists k, v. }
    destruct (Surface3d.minZ s) as [lo| | |] eqn:Hlo; cbn [least_of] in Hmin;
      try tauto; [|rewrite Hmin in Hin; destruct Hin].
    destruct (Surface3d.maxZ s) as [hi| | |] eqn:Hhi; cbn [greatest_of] in Hmax;
      try tauto; [|rewrite Hmax in Hin; destruct Hin].
    destruct Hmin as [Hlo_in Hlow]. destruct Hmax as [Hhi_in Hup].
    destruct (Hlow _ Hin) as (h & Hh & Hlh).
    destruct (Hup _ Hin) as (h' & Hh' & Hhh).
    assert (h' = h) by congruence. subst h'.
    exists lo, hi, h. split; [reflexivity|]. split; [reflexivity|].
    split.
    { rewrite (proj1 (Hv k v Hk)). unfold surface_call. rewrite Hz. exact Hh. }
    split; [split; assumption|]. split.
    + apply returned_values_in in Hlo_in as (z1 & Hz1 & Hc1).
      apply calls_in_lookup in Hz1 as (k1 & v1 & Hk1 & Ho1).
      exists k1, v1, z1. split; [exact Hk1|]. split; [exact Ho1|].
      rewrite (proj1 (Hv k1 v1 Hk1)), Ho1. cbn [pushed_value]. now rewrite Hc1.
    + apply returned_values_in in Hhi_in as (z2 & Hz2 & Hc2).
      apply calls_in_lookup in Hz2 as (k2 & v2 & Hk2 & Ho2).
      exists k2, v2, z2. split; [exact Hk2|]. split; [exact Ho2|].
      rewrite (proj1 (Hv k2 v2 Hk2)), Ho2. cbn [pushed_value]. now rewrite Hc2.
  - intros Hthrow.
    assert (Hnone : returned_values (map (surface_call evaluate equation) vs) = []).
    { destruct (returned_values _) as [|x l] eqn:Hl; [reflexivity|].
      assert (Hx : In x (returned_values
                           (map (surface_call evaluate equation) vs)))
        by (rewrite Hl; now left).
      apply returned_values_in in Hx as (z & Hz & _).
      apply calls_in_lookup in Hz as (k & v & Hk & Ho).
      unfold surface_call in Ho. rewrite (Hthrow k v Hk) in Ho. discriminate. }
    rewrite Hnone in Hmin, Hmax. split.
    + destruct (Surface3d.minZ s); cbn [least_of] in Hmin; try tauto.
      destruct Hmin as [[] _].
    + destruct (Surface3d.maxZ s); cbn [greatest_of] in Hmax; try tauto.
      destruct Hmax as [[] _].
Qed.

Lemma surface_bounds_are_extremes_of_returned_witness :
  exists s g,
    Surface3d.run PlaneGeometry_spec mathjs_examples "x > 0 ? y + 8 : foo"%string 3
      = (Ret tt, s) /\
    MathSurface PlaneGeometry_spec mathjs_examples "x > 0 ? y + 8 : foo"%string 3
      Mode3d = Ret g /\
    exists lo hi h,
      Surface3d.minZ s = Fin lo /\ Surface3d.maxZ s = Fin hi /\
      clampedValue Mode3d (vertex_at g 5) = Fin h /\ lo <= h <= hi.
Proof.
  destruct (surface_bounds_are_extremes_of_returned PlaneGeometry_spec
              mathjs_examples "x > 0 ? y + 8 : foo"%string 3)
    as (s & g & Hrun & Hg & Hret & _).
  exists s, g. split; [exact Hrun|]. split; [exact Hg|].
  destruct (Hret 5%nat (Fin (24 # 4), Fin (0 # 4), Fin 0) (Fin ((0 # 4) + 8))
              ltac:(vm_compute; reflexivity) ltac:(vm_compute; reflexivity))
    as (lo & hi & h & Hlo & Hhi & Hh & Hbetween & _).
  exists lo, hi, h. repeat split; try assumption; apply Hbetween.
Defined.

(** X6.  In Surface mode every vertex whose call returned has a normalised height
    between 0 and 1 and all three colour channels between 0 and 1, whatever
    happens at the other samples. *)
Theorem surface_returned_vertex_colour_in_unit
    (PlaneGeometry : plane_constructor) (evaluate : evaluator)
    (equation : string) (resolution : Z) :
  exists s g,
    Surface3d.run PlaneGeometry evaluate equation resolution = (Ret tt, s) /\
    MathSurface PlaneGeometry evaluate equation resolution Mode3d = Ret g /\
    forall k v z,
      plane_vertices PlaneGeometry resolution !! k = Some v ->
      evaluate equation (Scope_xy v.1.1 v.1.2) = Ret z ->
      exists t r gr b,
        Surface3d.normalizedHeight_of (Surface3d.minZ s) (Surface3d.maxZ s)
          (clampedValue Mode3d (vertex_at g k)) = Fin t /\
        0 <= t <= 1 /\
        color (vertex_at g k) = (Fin r, Fin gr, Fin b) /\
        0 <= r <= 1 /\ 0 <= gr <= 1 /\ 0 <= b <= 1.
Proof.
  destruct (surface_run_bounds PlaneGeometry evaluate equation resolution)
    as (s & g & Hrun & Hg & _ & Hmin & Hmax & Hv).
  exists s, g. split; [exact Hrun|]. split; [exact Hg|].
  intros k v z Hk Hz.
  assert (Hin : In (clamp_value z)
                  (returned_values
                     (map (surface_call evaluate equation)
                        (plane_vertices PlaneGeometry resolution)))).
  { apply returned_values_in. exists z. split; [|reflexivity].
    apply calls_in_lookup. now exists k, v. }
  destruct (Hv k v Hk) as [Hval Hcol].
  unfold surface_call in Hval. rewrite Hz in Hval. cbn [pushed_value] in Hval.
  destruct (Surface3d.minZ s) as [lo| | |]; cbn [least_of] in Hmin;
    try tauto; [|rewrite Hmin in Hin; destruct Hin].
  destruct (Surface3d.maxZ s) as [hi| | |]; cbn [greatest_of] in Hmax;
    try tauto; [|rewrite Hmax in Hin; destruct Hin].
  destruct (proj2 Hmin _ Hin) as (h & Hh & Hlh).
  destruct (proj2 Hmax _ Hin) as (h' & Hh' & Hhh).
  assert (h' = h) by congruence. subst h'.
  rewrite Hcol, Hval, Hh.
  destruct (normalized_height_in_unit lo hi h (conj Hlh Hhh))
    as (t & -> & Ht & _).
  destruct (surface_gradient_in_unit t Ht) as (r & gr & b & -> & Hr & Hgr & Hb).
  exists t, r, gr, b. repeat split; try reflexivity; tauto.
Qed.

Lemma surface_returned_vertex_colour_in_unit_witness :
  exists s g,
    Surface3d.run PlaneGeometry_spec mathjs_examples "x > 0 ? y + 8 : foo"%string 3
      = (Ret tt, s) /\
    MathSurface PlaneGeometry_spec mathjs_examples "x > 0 ? y + 8 : foo"%string 3
      Mode3d = Ret g /\
    exists r gr b,
      color (vertex_at g 5) = (Fin r, Fin gr, Fin b) /\
      0 <= r <= 1 /\ 0 <= gr <= 1 /\ 0 <= b <= 1.
Proof.
  destruct (surface_returned_vertex_colour_in_unit PlaneGeometry_spec
              mathjs_examples "x > 0 ? y + 8 : foo"%string 3)
    as (s & g & Hrun & Hg & Hret).
  exists s, g. split; [exact Hrun|]. split; [exact Hg|].
  destruct (Hret 5%nat (Fin (24 # 4), Fin (0 # 4), Fin 0) (Fin ((0 # 4) + 8))
              ltac:(vm_compute; reflexivity) ltac:(vm_compute; reflexivity))
    as (t & r & gr & b & _ & _ & Hcol & Hr & Hgr & Hb).
  exists r, gr, b. repeat split; try assumption; tauto.
Defined.

Lemma pushed_value_fin (o : outcome num) :
  exists h, pushed_value o = Fin h /\ -10 <= h <= 10.
Proof.
  destruct o as [z|]; [apply clamp_value_fin|].
  exists 0. split; [reflexivity|lra].
Qed.

(** What the tracked bounds look like once one of them is finite. *)
Lemma bounds_finite_when_one_is (l : list num) (lo hi : num) :
  least_of l lo -> greatest_of l hi ->
  (isFinite lo = true \/ isFinite hi = true) ->
  exists a b, lo = Fin a /\ hi = Fin b /\ a <= b.
Proof.
  intros Hmin Hmax Hfin.
  destruct lo as [a| | |]; cbn [least_of] in Hmin; try tauto;
    destruct hi as [b| | |]; cbn [greatest_of] in Hmax; try tauto.
  - exists a, b. split; [reflexivity|]. split; [reflexivity|].
    destruct Hmin as [Hin _]. destruct Hmax as [_ Hup].
    destruct (Hup _ Hin) as (q & Hq & Hle). injection Hq as <-. exact Hle.
  - destruct Hmin as [Hin _]. rewrite Hmax in Hin. destruct Hin.
  - destruct Hmax as [Hin _]. rewrite Hmin in Hin. destruct Hin.
  - destruct Hfin as [Hf|Hf]; discriminate Hf.
Qed.

(** X7.  In Surface mode, when the tracked bounds differ, a vertex at the tracked
    minimum is coloured (0, 0.4, 0.9) and a vertex at the tracked maximum
    (0.9, 0.3, 0.1): the two ends of the gradient. *)
Theorem surface_extremes_get_end_colours
    (PlaneGeometry : plane_constructor) (evaluate : evaluator)
    (equation : string) (resolution : Z) :
  exists s g,
    Surface3d.run PlaneGeometry evaluate equation resolution = (Ret tt, s) /\
    MathSurface PlaneGeometry evaluate equation resolution Mode3d = Ret g /\
    forall k,
      (k < vertex_count g)%nat ->
      strict_ne (Surface3d.maxZ s) (Surface3d.minZ s) = true ->
      (clampedValue Mode3d (vertex_at g k) ≈ Surface3d.minZ s ->
       same_color (color (vertex_at g k)) (Fin 0, Fin 0.4, Fin 0.9)) /\
      (clampedValue Mode3d (vertex_at g k) ≈ Surface3d.maxZ s ->
       same_color (color (vertex_at g k)) (Fin 0.9, Fin 0.3, Fin 0.1)).
Proof.
  destruct (surface_run_bounds PlaneGeometry evaluate equation resolution)
    as (s & g & Hrun & Hg & Hcount & Hmin & Hmax & Hv).
  exists s, g. split; [exact Hrun|]. split; [exact Hg|].
  intros k Hk Hne. rewrite Hcount in Hk.
  destruct (lookup_lt_is_Some_2 _ k Hk) as [v Hlook].
  destruct (Hv k v Hlook) as [Hval Hcol].
  destruct (pushed_value_fin (surface_call evaluate equation v))
    as (h & Hh & _).
  rewrite Hcol, Hval, Hh. clear Hcol Hval.
  split; intros Hat.
  - destruct (Surface3d.minZ s) as [lo| | |] eqn:Hlo; cbn [num_eq] in Hat;
      try tauto.
    destruct (bounds_finite_when_one_is _ _ _ Hmin Hmax (or_introl eq_refl))
      as (a & b & Ha & Hb & Hab).
    injection Ha as <-. rewrite Hb in Hne |- *.
    assert (Hdiff : ~ b == lo).
    { cbn in Hne. apply negb_true_iff, Qeq_bool_neq in Hne. exact Hne. }
    destruct (normalized_height_in_unit lo b h ltac:(lra))
      as (t & -> & _ & _ & Hzero & _).
    specialize (Hzero Hdiff Hat).
    destruct (surface_gradient_fin t) as (r & gr & bl & -> & Hband).
    unfold same_color. cbn [fst snd num_eq]. const_div.
    destruct Hband as [(? & ? & ? & ?)|[(? & ? & ? & ? & ?)|(? & ? & ? & ?)]];
      repeat split; lra.
  - destruct (Surface3d.maxZ s) as [hi| | |] eqn:Hhi; cbn [num_eq] in Hat;
      try tauto.
    destruct (bounds_finite_when_one_is _ _ _ Hmin Hmax (or_intror eq_refl))
      as (a & b & Ha & Hb & Hab).
    injection Hb as <-. rewrite Ha in Hne |- *.
    assert (Hdiff : ~ hi == a).
    { cbn in Hne. apply negb_true_iff, Qeq_bool_neq in Hne. exact Hne. }
    destruct (normalized_height_in_unit a hi h ltac:(lra))
      as (t & -> & _ & _ & _ & Hone).
    specialize (Hone Hdiff Hat).
    destruct (surface_gradient_fin t) as (r & gr & bl & -> & Hband).
    unfold same_color. cbn [fst snd num_eq]. const_div.
    destruct Hband as [(? & ? & ? & ?)|[(? & ? & ? & ? & ?)|(? & ? & ? & ?)]];
      repeat split; lra.
Qed.

Lemma surface_extremes_get_end_colours_witness :
  exists s g,
    Surface3d.run PlaneGeometry_spec mathjs_examples "x*y / 4"%string 3
      = (Ret tt, s) /\
    MathSurface PlaneGeometry_spec mathjs_examples "x*y / 4"%string 3 Mode3d
      = Ret g /\
    (2 < vertex_count g)%nat /\
    strict_ne (Surface3d.maxZ s) (Surface3d.minZ s) = true /\
    clampedValue Mode3d (vertex_at g 2) ≈ Surface3d.minZ s /\
    same_color (color (vertex_at g 2)) (Fin 0, Fin 0.4, Fin 0.9).
Proof.
  destruct (surface_extremes_get_end_colours PlaneGeometry_spec mathjs_examples
              "x*y / 4"%string 3) as (s & g & Hrun & Hg & Hends).
  exists s, g. split; [exact Hrun|]. split; [exact Hg|].
  assert (Hfacts : (2 < vertex_count g)%nat /\
                   strict_ne (Surface3d.maxZ s) (Surface3d.minZ s) = true /\
                   clampedValue Mode3d (vertex_at g 2) ≈ Surface3d.minZ s).
  { cbn [MathSurface] in Hg. vm_compute in Hg. injection Hg as <-.
    vm_compute in Hrun. injection Hrun as <-.
    vm_compute. repeat split; lia. }
  destruct Hfacts as (Hk & Hne & Hat).
  split; [exact Hk|]. split; [exact Hne|]. split; [exact Hat|].
  exact (proj1 (Hends 2%nat Hk Hne) Hat).
Defined.

(** X8.  A flat surface has one colour: when every call that returns gives the
    same clamped value, and at least one returns, each vertex, the ones whose
    call threw included, gets the colour of the normalised height 0.5. *)
Theorem surface_flat_gets_midpoint_colour
    (PlaneGeometry : plane_constructor) (evaluate : evaluator)
    (equation : string) (resolution : Z) (c : Q) :
  let vs := plane_vertices PlaneGeometry resolution in
  (exists k v z,
     vs !! k = Some v /\ evaluate equation (Scope_xy v.1.1 v.1.2) = Ret z) ->
  (forall k v z,
     vs !! k = Some v -> evaluate equation (Scope_xy v.1.1 v.1.2) = Ret z ->
     clamp_value z ≈ Fin c) ->
  exists g,
    MathSurface PlaneGeometry evaluate equation resolution Mode3d = Ret g /\
    forall k, (k < vertex_count g)%nat ->
      color (vertex_at g k) = surface_gradient (lit 0.5) /\
      same_color (color (vertex_at g k))
        (Fin (217 # 330), Fin 0.9, Fin (195 # 330)).
Proof.
  intros vs (k0 & v0 & z0 & Hk0 & Hz0) Hsame.
  destruct (surface_run_bounds PlaneGeometry evaluate equation resolution)
    as (s & g & _ & Hg & Hcount & Hmin & Hmax & Hv).
  fold vs in Hcount, Hmin, Hmax, Hv.
  assert (Hin0 : In (clamp_value z0)
                   (returned_values (map (surface_call evaluate equation) vs))).
  { apply returned_values_in. exists z0. split; [|reflexivity].
    apply calls_in_lookup. now exists k0, v0. }
  assert (Hall : forall x,
            In x (returned_values (map (surface_call evaluate equation) vs)) ->
            x ≈ Fin c).
  { intros x Hx. apply returned_values_in in Hx as (z & Hz & ->).
    apply calls_in_lookup in Hz as (k & v & Hk & Ho). now apply (Hsame k v z). }
  destruct (Surface3d.minZ s) as [lo| | |]; cbn [least_of] in Hmin;
    try tauto; [|rewrite Hmin in Hin0; destruct Hin0].
  destruct (Surface3d.maxZ s) as [hi| | |]; cbn [greatest_of] in Hmax;
    try tauto; [|rewrite Hmax in Hin0; destruct Hin0].
  pose proof (Hall _ (proj1 Hmin)) as Hlo. pose proof (Hall _ (proj1 Hmax)) as Hhi.
  cbn [num_eq] in Hlo, Hhi.
  exists g. split; [exact Hg|]. intros k Hk. rewrite Hcount in Hk.
  destruct (lookup_lt_is_Some_2 _ k Hk) as [v Hlook].
  destruct (Hv k v Hlook) as [_ Hcol]. rewrite Hcol.
  rewrite normalizedHeight_midpoint.
  - split; [reflexivity|]. vm_compute. repeat split; reflexivity.
  - cbn. apply negb_false_iff, Qeq_bool_iff. lra.
Qed.

Lemma surface_flat_gets_midpoint_colour_witness :
  exists g,
    MathSurface PlaneGeometry_spec mathjs_examples "x > 0 ? 1 : foo"%string 3
      Mode3d = Ret g /\
    (0 < vertex_count g)%nat /\
    mathjs_examples "x > 0 ? 1 : foo"%string (Scope_xy (Fin (-24 # 4)) (Fin (-24 # 4)))
      = Throw /\
    same_color (color (vertex_at g 0)) (Fin (217 # 330), Fin 0.9, Fin (195 # 330)).
Proof.
  destruct (surface_flat_gets_midpoint_colour PlaneGeometry_spec mathjs_examples
              "x > 0 ? 1 : foo"%string 3 1) as (g & Hg & Hflat).
  - exists 2%nat, (Fin (24 # 4), Fin (-24 # 4), Fin 0), (Fin 1).
    split; vm_compute; reflexivity.
  - intros k v z Hk Hz.
    destruct v as [[x y] z0]. cbn [fst snd] in Hz.
    change (mathjs_examples "x > 0 ? 1 : foo"%string (Scope_xy x y))
      with (if lt (lit 0) x then Ret (lit 1) else @Throw num) in Hz.
    destruct (lt (lit 0) x); [|discriminate Hz].
    injection Hz as <-. vm_compute. reflexivity.
  - exists g. split; [exact Hg|].
    assert (Hpos : (0 < vertex_count g)%nat).
    { cbn [MathSurface] in Hg. vm_compute in Hg. injection Hg as <-.
      vm_compute. lia. }
    split; [exact Hpos|]. split; [reflexivity|].
    exact (proj2 (Hflat 0%nat Hpos)).
Defined.

(** X9.  The green channel of the surface gradient breaks at the first band edge
    and nowhere else above it: a vertex whose normalised height is just
    below 0.33 (from 0.32 on) has green at least 0.98, a vertex in the middle
    band has green 0.9; across the second edge, at 0.66, no channel changes
    by more than twice the difference of the normalised heights. *)
Theorem surface_green_breaks_at_first_band_edge
    (PlaneGeometry : plane_constructor) (evaluate : evaluator)
    (equation : string) (resolution : Z) :
  exists s g,
    Surface3d.run PlaneGeometry evaluate equation resolution = (Ret tt, s) /\
    MathSurface PlaneGeometry evaluate equation resolution Mode3d = Ret g /\
    forall k j tk tj,
      (k < vertex_count g)%nat -> (j < vertex_count g)%nat ->
      normalizedHeight_at s g k = Fin tk ->
      normalizedHeight_at s g j = Fin tj ->
      (0.32 <= tk < 0.33 -> 0.33 <= tj < 0.66 ->
       exists gk gj,
         green (vertex_at g k) = Fin gk /\ green (vertex_at g j) = Fin gj /\
         0.98 <= gk /\ gj == 0.9) /\
      (0.33 <= tk < 0.66 -> 0.66 <= tj <= 1 ->
       exists rk gk bk rj gj bj,
         color (vertex_at g k) = (Fin rk, Fin gk, Fin bk) /\
         color (vertex_at g j) = (Fin rj, Fin gj, Fin bj) /\
         rj - rk <= 2 * (tj - tk) /\ rk <= rj /\
         gk - gj <= 2 * (tj - tk) /\ gj <= gk /\
         bk - bj <= 2 * (tj - tk) /\ bj <= bk).
Proof.
  destruct (surface_run_bounds PlaneGeometry evaluate equation resolution)
    as (s & g & Hrun & Hg & Hcount & _ & _ & Hv).
  exists s, g. split; [exact Hrun|]. split; [exact Hg|].
  intros k j tk tj Hk Hj Htk Htj. rewrite Hcount in Hk, Hj.
  destruct (lookup_lt_is_Some_2 _ k Hk) as [vk Hlk].
  destruct (lookup_lt_is_Some_2 _ j Hj) as [vj Hlj].
  pose proof (proj2 (Hv k vk Hlk)) as Hck.
  pose proof (proj2 (Hv j vj Hlj)) as Hcj.
  unfold normalizedHeight_at in Htk, Htj. rewrite Htk in Hck. rewrite Htj in Hcj.
  destruct (surface_gradient_fin tk) as (rk & gk & bk & Hgk & Hbk).
  destruct (surface_gradient_fin tj) as (rj & gj & bj & Hgj & Hbj).
  rewrite Hgk in Hck. rewrite Hgj in Hcj. unfold green. rewrite Hck, Hcj.
  cbn [fst snd]. const_div. split.
  - intros Hlow Hmid. exists gk, gj. split; [reflexivity|].
    split; [reflexivity|].
    destruct Hbk as [(? & ? & ? & ?)|[(? & ? & ? & ? & ?)|(? & ? & ? & ?)]];
      destruct Hbj as [(? & ? & ? & ?)|[(? & ? & ? & ? & ?)|(? & ? & ? & ?)]];
      split; lra.
  - intros Hmid Hhigh. exists rk, gk, bk, rj, gj, bj.
    split; [reflexivity|]. split; [reflexivity|].
    destruct Hbk as [(? & ? & ? & ?)|[(? & ? & ? & ? & ?)|(? & ? & ? & ?)]];
      destruct Hbj as [(? & ? & ? & ?)|[(? & ? & ? & ? & ?)|(? & ? & ? & ?)]];
      repeat split; lra.
Qed.

Lemma surface_green_breaks_at_first_band_edge_witness :
  exists s g,
    Surface3d.run PlaneGeometry_spec mathjs_band_edge
      "x < 0 ? 0 : x > 0 ? 1 : (y < 0 ? 0.32 : 0.33)"%string 3 = (Ret tt, s) /\
    MathSurface PlaneGeometry_spec mathjs_band_edge
      "x < 0 ? 0 : x > 0 ? 1 : (y < 0 ? 0.32 : 0.33)"%string 3 Mode3d = Ret g /\
    normalizedHeight_at s g 1 = Fin 0.32 /\
    normalizedHeight_at s g 4 = Fin 0.33 /\
    exists gk gj,
      green (vertex_at g 1) = Fin gk /\ green (vertex_at g 4) = Fin gj /\
      0.98 <= gk /\ gj == 0.9.
Proof.
  destruct (surface_green_breaks_at_first_band_edge PlaneGeometry_spec
              mathjs_band_edge
      "x < 0 ? 0 : x > 0 ? 1 : (y < 0 ? 0.32 : 0.33)"%string 3) as (s & g & Hrun & Hg & Hedge).
  exists s, g. split; [exact Hrun|]. split; [exact Hg|].
  assert (Hfacts : (1 < vertex_count g)%nat /\ (4 < vertex_count g)%nat /\
                   normalizedHeight_at s g 1 = Fin (32 # 100) /\
                   normalizedHeight_at s g 4 = Fin (33 # 100)).
  { cbn [MathSurface] in Hg. vm_compute in Hg. injection Hg as <-.
    vm_compute in Hrun. injection Hrun as <-.
    vm_compute. repeat split; lia. }
  destruct Hfacts as (Hk & Hj & Htk & Htj).
  split; [exact Htk|]. split; [exact Htj|].
  apply (proj1 (Hedge 1%nat 4%nat _ _ Hk Hj Htk Htj)); split; lra.
Defined.

(** ** Shape of the geometry *)

Lemma normalized_height_finite (lo hi h : Q) :
  lo <= hi ->
  exists t, Surface3d.normalizedHeight_of (Fin lo) (Fin hi) (Fin h) = Fin t.
Proof.
  intros Hle. unfold Surface3d.normalizedHeight_of, strict_ne.
  cbn [num_eqb]. destruct (Qeq_bool hi lo) eqn:Heq; cbn [negb].
  - now exists 0.5.
  - apply Qeq_bool_neq in Heq.
    assert (Hgap : 0 < hi + - lo).
    { destruct (Qlt_le_dec lo hi) as [Hlt|Hge]; [lra|].
      exfalso. apply Heq. lra. }
    cbn [sub add neg]. rewrite div_positive by exact Hgap. eauto.
Qed.

(** X10.  Not-a-number colours appear in Surface mode exactly when no call
    returns: as soon as one call returns, every channel of every vertex is a
    finite number; when every call throws, every vertex is coloured
    (0.9, NaN, NaN). *)
Theorem surface_colours_finite_unless_all_throw
    (PlaneGeometry : plane_constructor) (evaluate : evaluator)
    (equation : string) (resolution : Z) :
  let vs := plane_vertices PlaneGeometry resolution in
  exists g,
    MathSurface PlaneGeometry evaluate equation resolution Mode3d = Ret g /\
    ((exists k v z,
        vs !! k = Some v /\ evaluate equation (Scope_xy v.1.1 v.1.2) = Ret z) ->
     forall k, (k < vertex_count g)%nat ->
       exists r gr b, color (vertex_at g k) = (Fin r, Fin gr, Fin b)) /\
    ((forall k v, vs !! k = Some v ->
        evaluate equation (Scope_xy v.1.1 v.1.2) = Throw) ->
     forall k, (k < vertex_count g)%nat ->
       color (vertex_at g k) = (Fin 0.9, NaN, NaN)).
Proof.
  intros vs.
  destruct (surface_run_bounds PlaneGeometry evaluate equation resolution)
    as (s & g & _ & Hg & Hcount & Hmin & Hmax & Hv).
  fold vs in Hcount, Hmin, Hmax, Hv.
  exists g. split; [exact Hg|]. split.
  - intros (k0 & v0 & z0 & Hk0 & Hz0) k Hk. rewrite Hcount in Hk.
    assert (Hin0 : In (clamp_value z0)
                     (returned_values (map (surface_call evaluate equation) vs))).
    { apply returned_values_in. exists z0. split; [|reflexivity].
      apply calls_in_lookup. now exists k0, v0. }
    assert (Hfin : isFinite (Surface3d.minZ s) = true).
    { destruct (Surface3d.minZ s); cbn [least_of] in Hmin; try tauto.
      rewrite Hmin in Hin0. destruct Hin0. }
    destruct (bounds_finite_when_one_is _ _ _ Hmin Hmax (or_introl Hfin))
      as (lo & hi & Hlo & Hhi & Hle).
    destruct (lookup_lt_is_Some_2 _ k Hk) as [v Hlook].
    destruct (Hv k v Hlook) as [Hval Hcol].
    destruct (pushed_value_fin (surface_call evaluate equation v))
      as (h & Hh & _).
    rewrite Hcol, Hval, Hh, Hlo, Hhi.
    destruct (normalized_height_finite lo hi h Hle) as (t & ->).
    destruct (surface_gradient_fin t) as (r & gr & b & -> & _). eauto.
  - intros Hthrow k Hk. rewrite Hcount in Hk.
    assert (Hnone : returned_values (map (surface_call evaluate equation) vs) = []).
    { destruct (returned_values _) as [|x l] eqn:Hl; [reflexivity|].
      assert (Hx : In x (returned_values
                           (map (surface_call evaluate equation) vs)))
        by (rewrite Hl; now left).
      apply returned_values_in in Hx as (z & Hz & _).
      apply calls_in_lookup in Hz as (k' & v & Hk' & Ho).
      unfold surface_call in Ho. rewrite (Hthrow k' v Hk') in Ho. discriminate. }
    rewrite Hnone in Hmin, Hmax.
    assert (Hlo : Surface3d.minZ s = PInf).
    { destruct (Surface3d.minZ s); cbn [least_of] in Hmin; try tauto.
      destruct Hmin as [[] _]. }
    assert (Hhi : Surface3d.maxZ s = NInf).
    { destruct (Surface3d.maxZ s); cbn [greatest_of] in Hmax; try tauto.
      destruct Hmax as [[] _]. }
    destruct (lookup_lt_is_Some_2 _ k Hk) as [v Hlook].
    destruct (Hv k v Hlook) as [Hval Hcol].
    rewrite Hcol, Hval, Hlo, Hhi. unfold surface_call.
    rewrite (Hthrow k v Hlook). reflexivity.
Qed.

Lemma surface_colours_finite_unless_all_throw_witness :
  exists g,
    MathSurface PlaneGeometry_spec mathjs_examples "x > 0 ? 1 : foo"%string 3
      Mode3d = Ret g /\
    (0 < vertex_count g)%nat /\
    exists r gr b, color (vertex_at g 0) = (Fin r, Fin gr, Fin b).
Proof.
  destruct (surface_colours_finite_unless_all_throw PlaneGeometry_spec
              mathjs_examples "x > 0 ? 1 : foo"%string 3)
    as (g & Hg & Hsome & _).
  exists g. split; [exact Hg|].
  assert (Hpos : (0 < vertex_count g)%nat).
  { cbn [MathSurface] in Hg. vm_compute in Hg. injection Hg as <-.
    vm_compute. lia. }
  split; [exact Hpos|]. apply Hsome; [|exact Hpos].
  exists 2%nat, (Fin (24 # 4), Fin (-24 # 4), Fin 0), (Fin 1).
  split; vm_compute; reflexivity.
Defined.


